(** * CoilSpringDesign: a two-coil spring nest with a defined design length

    A shallow embedding of [CoilSpringDesign.py] (class [TwoCoilSetLength],
    methods [__init__], [error] and [get_solution]) and the properties of its
    residual function and of its post-processing.

    Numbers.  The program computes with [numpy.float64] scalars.  The
    embedding is written once over an interface [Arith] of the arithmetic the
    source uses ([+], [-], [*], [/], [>], the literals [0.0] and [2]); the
    interface has two instances:
    - [Binary64]: IEEE 754 binary64, the kernel's primitive floats, which is
      the arithmetic of the running program (division by zero gives an
      infinity or a NaN, it does not raise);
    - [Exact]: exact rational arithmetic extended with one non-finite value
      [NaN], produced by a division by zero and absorbing afterwards.  It is the
      idealisation in which the algebraic properties are stated; rounding is
      not modelled there.

    Collaborators.  [helicoil] (imported as [hc]) and [scipy.optimize.root] are
    external libraries: they are interfaces ([Helicoil], [Scipy]) and every
    theorem holds for all their implementations. *)

From Stdlib Require Import ZArith QArith Qminmax Lqa Floats List String Bool.
Import ListNotations.

Set Implicit Arguments.

(** ** Python outcomes *)

(** The exceptions the embedded code can meet: [ValueError] is what the tuple
    unpacking [a,b,... = x] raises on a wrong number of values; [Exception]
    stands for anything a collaborator raises. *)
Inductive exn : Type :=
| ValueError
| Exception (name : string).

Inductive outcome (A : Type) : Type :=
| Returned (a : A)
| Raised (e : exn).

Arguments Returned {A} a.
Arguments Raised {A} e.

Definition bind {A B : Type} (c : outcome A) (k : A -> outcome B) : outcome B :=
  match c with
  | Returned a => k a
  | Raised e => Raised e
  end.

Notation "x <- c ;; k" := (bind c (fun x => k))
  (at level 61, c at next level, right associativity).

(** ** The arithmetic the source uses *)

Declare Scope num_scope.
Delimit Scope num_scope with num.

Class Arith (num : Type) : Type := {
  zero : num;                 (* the literal 0.0 *)
  two : num;                  (* the literal 2 of 2*self.coil_gap *)
  add : num -> num -> num;
  sub : num -> num -> num;
  mul : num -> num -> num;
  div : num -> num -> num;
  gtb : num -> num -> bool    (* a > b *)
}.

Infix "+" := add : num_scope.
Infix "-" := sub : num_scope.
Infix "*" := mul : num_scope.
Infix "/" := div : num_scope.
Infix ">?" := gtb (at level 70, no associativity) : num_scope.

(** ** The collaborators *)

(** A material descriptor ([hc.prEN10089] is one): the moduli and the solid
    stress limit as a function of the wire diameter. *)
Record Material (num : Type) : Type := {
  G : num;
  E : num;
  solid_stress_limit : num -> num
}.

(** The functions of [helicoil] that the class calls, with their arguments in
    the order of the calls. *)
Class Helicoil (num : Type) : Type := {
  CoilData : Type;
  solid_length : num -> num -> num;                         (* N, d *)
  Sa_min_reserve_length : num -> num -> num -> num;         (* D, d, N *)
  axial_rate : num -> num -> num -> num -> num;             (* G, d, D, N *)
  axial_stress_static : num -> num -> num -> num;           (* D, d, force *)
  buckling_deflection : num -> num -> num -> num -> num -> num;
                                                            (* G, E, D, L0, end_con *)
  coil_data : string -> num -> num -> num -> num -> num -> num -> num -> num ->
              Material num -> CoilData
                          (* name, d, D, N, F, L, L_min, lo_amp, hi_amp, mat *)
}.

(** [scipy.optimize.root]: it is handed the residual function and the initial
    guess, and returns an [OptimizeResult], of which the class reads
    [success] and [x]; an exception raised by the residual function while the
    solver probes it comes out of [root]. *)
Class Scipy (num : Type) : Type := {
  OptimizeResult : Type;
  success : OptimizeResult -> bool;
  x : OptimizeResult -> list num;
  root : (list num -> outcome (list num)) -> list num -> outcome OptimizeResult
}.

(** What a slot of the tuple returned by [get_solution] can hold. *)
Inductive pyobj {num : Type} {hc : Helicoil num} {sp : Scipy num} : Type :=
| PyNone
| PySol (sol : OptimizeResult)
| PyCoil (c : CoilData).

(** ** class TwoCoilSetLength *)

Module CoilSpringDesign.

Section TwoCoilSetLength.

Context {num : Type} {ar : Arith num} {hc : Helicoil num} {sp : Scipy num}.

Local Open Scope num_scope.

(** The attributes [__init__] sets. *)
Record TwoCoilSetLength : Type := {
  mat : Material num;
  end_con : num;
  R : num;
  F : num;
  L : num;
  coil_gap : num;
  max_comp : num;
  lo_cycle_amp : num;
  hi_cycle_amp : num;
  comp_res : num;
  solid_str_res : num;
  x0 : list num
}.

Definition __init__ (material : Material num)
  (axial_rate design_load design_length radial_coil_gap max_compression
   lo_cycle_defln_amplitude hi_cycle_defln_amplitude end_condition
   compression_defln_reserve solid_stress_reserve : num)
  (estimated_solution : list num) : TwoCoilSetLength :=
  {| mat := material;
     end_con := end_condition;
     R := axial_rate;
     F := design_load;
     L := design_length;
     coil_gap := radial_coil_gap;
     max_comp := max_compression;
     lo_cycle_amp := lo_cycle_defln_amplitude;
     hi_cycle_amp := hi_cycle_defln_amplitude;
     comp_res := compression_defln_reserve;
     solid_str_res := solid_stress_reserve;
     x0 := estimated_solution |}.

(** The local variables of [error] when it returns. *)
Record error_frame : Type := {
  e_min_service_len : num;
  e_min_length : num;
  e_Do : num;
  e_Di : num;
  e_Lco : num;
  e_Lci : num;
  e_Sao : num;
  e_Sai : num;
  e_minLength_o : num;
  e_minLength_i : num;
  e_Ro : num;
  e_Ri : num;
  e_Fo1 : num;
  e_Fi1 : num;
  e_L1 : num;
  e_F2 : num;
  e_L_at_F : num;
  e_solidStr_o : num;
  e_solidStr_i : num;
  e_solidStrRes_o : num;
  e_solidStrRes_i : num;
  e_buck_defln : num;
  e_buckling_len : num;
  e_v : list num
}.

(** The body of [error] after [OD,do,No,L0o,di,Ni,L0i = x[:]], statement by
    statement. *)
Definition error_body (self : TwoCoilSetLength)
  (OD do No L0o di Ni L0i : num) : error_frame :=
  let min_service_len := L self - max_comp self in
  let min_length := min_service_len - comp_res self in
  let Do := OD - do in
  let Di := Do - do - two * coil_gap self - di in
  let Lco := solid_length No do in
  let Lci := solid_length Ni di in
  let Sao := Sa_min_reserve_length Do do No in
  let Sai := Sa_min_reserve_length Di di Ni in
  let minLength_o := Lco + Sao in
  let minLength_i := Lci + Sai in
  let Ro := axial_rate (G (mat self)) do Do No in
  let Ri := axial_rate (G (mat self)) di Di Ni in
  let '(Fo1, Fi1, L1) :=
    if L0o >? L0i
    then (Ro * (L0o - L0i), zero, L0i)
    else (zero, Ri * (L0i - L0o), L0o) in
  let F2 := F self - Fo1 - Fi1 in
  let L_at_F := L1 - F2 / (Ro + Ri) in
  let solidStr_o := axial_stress_static Do do (Ro * (L0o - Lco)) in
  let solidStr_i := axial_stress_static Di di (Ri * (L0i - Lci)) in
  let solidStrRes_o := solid_stress_limit (mat self) do - solidStr_o in
  let solidStrRes_i := solid_stress_limit (mat self) di - solidStr_i in
  let buck_defln :=
    buckling_deflection (G (mat self)) (E (mat self)) Di L0i (end_con self) in
  let buckling_len := L0i - buck_defln in
  let v := [ Ro + Ri - R self;
             minLength_o - min_length;
             minLength_i - min_length;
             L_at_F - L self;
             solidStrRes_o - solid_str_res self;
             solidStrRes_i - solid_str_res self;
             buckling_len - min_service_len ] in
  {| e_min_service_len := min_service_len;
     e_min_length := min_length;
     e_Do := Do;
     e_Di := Di;
     e_Lco := Lco;
     e_Lci := Lci;
     e_Sao := Sao;
     e_Sai := Sai;
     e_minLength_o := minLength_o;
     e_minLength_i := minLength_i;
     e_Ro := Ro;
     e_Ri := Ri;
     e_Fo1 := Fo1;
     e_Fi1 := Fi1;
     e_L1 := L1;
     e_F2 := F2;
     e_L_at_F := L_at_F;
     e_solidStr_o := solidStr_o;
     e_solidStr_i := solidStr_i;
     e_solidStrRes_o := solidStrRes_o;
     e_solidStrRes_i := solidStrRes_i;
     e_buck_defln := buck_defln;
     e_buckling_len := buckling_len;
     e_v := v |}.

(** [error(self, x)]: the unpacking raises [ValueError] unless [x] holds
    seven values; [v], created as [np.zeros(len(x))], then has its seven
    entries assigned. *)
Definition error (self : TwoCoilSetLength) (x : list num) : outcome (list num) :=
  match x with
  | [OD; do; No; L0o; di; Ni; L0i] =>
      Returned (e_v (error_body self OD do No L0o di Ni L0i))
  | _ => Raised ValueError
  end.

(** The local variables of [get_solution] when it returns from a successful
    solve. *)
Record solution_frame : Type := {
  s_Do : num;
  s_Di : num;
  s_Ro : num;
  s_Ri : num;
  s_Fo1 : num;
  s_Fi1 : num;
  s_L1 : num;
  s_Fo : num;
  s_Fi : num;
  s_L_min : num;
  s_OC_data : CoilData;
  s_IC_data : CoilData
}.

(** The body of [get_solution] after [OD,do,No,L0o,di,Ni,L0i = sol.x]. *)
Definition get_solution_body (self : TwoCoilSetLength)
  (OD do No L0o di Ni L0i : num) : solution_frame :=
  let Do := OD - do in
  let Di := Do - do - two * coil_gap self - di in
  let Ro := axial_rate (G (mat self)) do Do No in
  let Ri := axial_rate (G (mat self)) di Di Ni in
  let '(Fo1, Fi1, L1) :=
    if L0o >? L0i
    then (Ro * (L0o - L0i), zero, L0i)
    else (zero, Ri * (L0i - L0o), L0o) in
  let Fo := Fo1 + Ro * (L1 - L self) in
  let Fi := Fi1 + Ri * (L1 - L self) in
  let L_min := L self - max_comp self in
  let OC_data := coil_data "Outer Coil" do Do No Fo (L self) L_min
                   (lo_cycle_amp self) (hi_cycle_amp self) (mat self) in
  let IC_data := coil_data "Inner Coil" di Di Ni Fi (L self) L_min
                   (lo_cycle_amp self) (hi_cycle_amp self) (mat self) in
  {| s_Do := Do;
     s_Di := Di;
     s_Ro := Ro;
     s_Ri := Ri;
     s_Fo1 := Fo1;
     s_Fi1 := Fi1;
     s_L1 := L1;
     s_Fo := Fo;
     s_Fi := Fi;
     s_L_min := L_min;
     s_OC_data := OC_data;
     s_IC_data := IC_data |}.

(** [get_solution(self)]: the triple it returns is
    [(False, sol, None)] or [(True, OC_data, IC_data)]. *)
Definition get_solution (self : TwoCoilSetLength) : outcome (bool * pyobj * pyobj) :=
  sol <- root (error self) (x0 self) ;;
  if negb (success sol)
  then Returned (false, PySol sol, PyNone)
  else
    match x sol with
    | [OD; do; No; L0o; di; Ni; L0i] =>
        let fr := get_solution_body self OD do No L0o di Ni L0i in
        Returned (true, PyCoil (s_OC_data fr), PyCoil (s_IC_data fr))
    | _ => Raised ValueError
    end.

(** The tie-break as the specification words it, the single function
    [resolvePreload(Ro, Ri, L0o, L0i) -> (Fo1, Fi1, L1)] it asks both methods
    to share: the coil with the greater free length is preloaded by its rate
    times the free-length difference, the other by nothing, and the contact
    length is the smaller free length; the outer coil is the preloaded one
    when [L0o > L0i], the inner one otherwise, equality included.  The source
    has no such function: it is what the two methods are compared with. *)
Definition resolvePreload (Ro Ri L0o L0i : num) : num * num * num :=
  let outer_is_longer := L0o >? L0i in
  let preload_outer := if outer_is_longer then Ro * (L0o - L0i) else zero in
  let preload_inner := if outer_is_longer then zero else Ri * (L0i - L0o) in
  let contact_length := if outer_is_longer then L0i else L0o in
  (preload_outer, preload_inner, contact_length).

End TwoCoilSetLength.

Arguments TwoCoilSetLength num : clear implicits.
Arguments error_frame num : clear implicits.
Arguments solution_frame num {hc}.

End CoilSpringDesign.

Import CoilSpringDesign.

(** ** Binary64: the arithmetic of the running program *)

Module Binary64.

#[global] Instance arith : Arith float := {|
  zero := 0%float;
  two := 2%float;
  add := PrimFloat.add;
  sub := PrimFloat.sub;
  mul := PrimFloat.mul;
  div := PrimFloat.div;
  gtb := fun a b => PrimFloat.ltb b a
|}.

End Binary64.

(** ** Exact: rational arithmetic with one non-finite value *)

Module Exact.

Inductive xQ : Type :=
| Fin (q : Q)
| NaN.

Definition lift2 (f : Q -> Q -> Q) (a b : xQ) : xQ :=
  match a, b with
  | Fin p, Fin q => Fin (f p q)
  | _, _ => NaN
  end.

(** A division by zero leaves the finite numbers, as it does in binary64
    (where it gives an infinity or a NaN). *)
Definition xdiv (a b : xQ) : xQ :=
  match a, b with
  | Fin p, Fin q => if Qeq_bool q 0 then NaN else Fin (p / q)
  | _, _ => NaN
  end.

(** [a > b]; a comparison with the non-finite value is false, as with a NaN. *)
Definition xgtb (a b : xQ) : bool :=
  match a, b with
  | Fin p, Fin q => match p ?= q with Gt => true | _ => false end
  | _, _ => false
  end.

#[global] Instance arith : Arith xQ := {|
  zero := Fin 0;
  two := Fin 2;
  add := lift2 Qplus;
  sub := lift2 Qminus;
  mul := lift2 Qmult;
  div := xdiv;
  gtb := xgtb
|}.

(** [equals a q]: the value [a] is the finite number [q]. *)
Definition equals (a : xQ) (q : Q) : Prop :=
  match a with
  | Fin p => p == q
  | NaN => False
  end.

(** [a] and [b] are finite and equal. *)
Definition same (a b : xQ) : Prop :=
  match a, b with
  | Fin p, Fin q => p == q
  | _, _ => False
  end.

Definition is_zerob (a : xQ) : bool :=
  match a with
  | Fin p => Qeq_bool p 0
  | NaN => false
  end.


End Exact.

(** ** A stand-in for the collaborators

    Neither [helicoil] nor [scipy] is part of the program.  To run the
    embedding on concrete inputs, [Demo] supplies simplified stand-ins, written
    over any arithmetic: they are not the formulas of the libraries, and no
    theorem about the program depends on them. *)

Module Demo.

Section StandIn.

Context {num : Type} {ar : Arith num}.

Local Open Scope num_scope.

Definition eight : num := two * two * two.

(** What [coil_data] is given, kept as it is. *)
Record coil : Type := {
  name : string;
  d : num;
  D : num;
  N : num;
  load : num;
  length : num;
  min_length : num;
  lo_amp : num;
  hi_amp : num;
  material : Material num
}.

Definition helicoil : Helicoil num := {|
  CoilData := coil;
  solid_length := fun N d => N * d;
  Sa_min_reserve_length := fun D d N => N * (D + d) / (two * eight);
  axial_rate := fun G d D N => G * (d * d * d * d) / (eight * (D * D * D) * N);
  axial_stress_static := fun D d force => two * D * force / (d * d * d);
  buckling_deflection := fun G E D L0 end_con => L0 * end_con / two;
  coil_data := Build_coil
|}.

(** A solver that only tries the initial guess: it succeeds when the
    residual vector there is zero, as told by [is_zero]. *)
Record result : Type := {
  res_x : list num;
  res_success : bool;
  res_fun : list num;
  res_nfev : nat
}.

Definition try_guess (is_zero : num -> bool)
  (f : list num -> outcome (list num)) (guess : list num) : outcome result :=
  v <- f guess ;;
  Returned {| res_x := guess;
              res_success := forallb is_zero v;
              res_fun := v;
              res_nfev := 1 |}.

Definition scipy (is_zero : num -> bool) : Scipy num := {|
  OptimizeResult := result;
  success := res_success;
  x := res_x;
  root := try_guess is_zero
|}.

End StandIn.

Import Exact.

Definition exact_scipy : Scipy xQ := scipy is_zerob.

#[local] Existing Instance helicoil.
#[local] Existing Instance exact_scipy.

Definition steel : Material xQ := {|
  G := Fin 80000;
  E := Fin 200000;
  solid_stress_limit := fun d => (Fin 1140 + eight * d)%num
|}.

(** A nest that the initial guess already solves. *)
Definition nest : TwoCoilSetLength xQ :=
  __init__ steel (Fin 200) (Fin 19200) (Fin 400) (Fin 10) (Fin 100)
    (Fin 35) (Fin 25) (Fin (3 # 4)) (Fin 25) (Fin 100)
    [Fin 120; Fin 20; Fin 10; Fin 500; Fin 10; Fin 20; Fin 480].

(** What the stand-in solver answers for a nest. *)
Definition answer (self : TwoCoilSetLength xQ) : result :=
  match root (error self) (x0 self) with
  | Returned sol => sol
  | Raised _ => {| res_x := []; res_success := false; res_fun := []; res_nfev := 0 |}
  end.

(** The same data with a negative target rate. *)
Definition bad_nest : TwoCoilSetLength xQ :=
  __init__ steel (Fin (-280)) (Fin 19200) (Fin 400) (Fin 10) (Fin 100)
    (Fin 35) (Fin 25) (Fin (3 # 4)) (Fin 25) (Fin 100)
    [Fin 120; Fin 20; Fin 10; Fin 500; Fin 10; Fin 20; Fin 480].

(** The same nest in binary64. *)
Definition steel64 : Material float := {|
  G := 80000%float;
  E := 200000%float;
  solid_stress_limit := fun d => (1140%float + eight * d)%num
|}.

Definition nest64 : TwoCoilSetLength float :=
  __init__ steel64 200%float 19200%float 400%float 10%float 100%float
    35%float 25%float 0.75%float 25%float 100%float
    [120; 20; 10; 500; 10; 20; 480]%float.

End Demo.

(** ** The callers: [PR20_Primary_Spring.py] and the script of
    [CoilSpringDesign.py] *)

(** Python's [TypeError] (a call with a missing or an unexpected keyword)
    and [AttributeError] (an attribute the object does not have). *)
Definition TypeError : exn := Exception "TypeError".
Definition AttributeError : exn := Exception "AttributeError".

(** What the callers use of [helicoil] besides the calls of the class: the
    attributes they read of a coil record, the serialiser, and the material
    of the scripts. *)
Class HelicoilReport (num : Type) {hc : Helicoil num} : Type := {
  attr_OD : CoilData -> num;            (* .OD *)
  attr_L0 : CoilData -> num;            (* .L0 *)
  attr_d : CoilData -> num;             (* .d *)
  attr_coil_gap : CoilData -> num;      (* .coil_gap *)
  coil_data_csv : CoilData -> string;
  prEN10089 : Material num
}.

(** The dictionary [nest_data], with values of the kinds [__init__] expects.
    Each keyword of [__init__] is present ([Some]) or absent ([None]);
    [other_keys] are the keys that are no parameter of [__init__]. *)
Module NestData.

Section NestData.

Context {num : Type}.

Record t : Type := {
  material : option (Material num);
  axial_rate : option num;
  design_load : option num;
  design_length : option num;
  radial_coil_gap : option num;
  max_compression : option num;
  lo_cycle_defln_amplitude : option num;
  hi_cycle_defln_amplitude : option num;
  end_condition : option num;
  compression_defln_reserve : option num;
  solid_stress_reserve : option num;
  estimated_solution : option (list num);
  other_keys : list string
}.

(** [nest_data["solid_stress_reserve"] = v]. *)
Definition set_solid_stress_reserve (v : num) (nd : t) : t :=
  {| material := material nd;
     axial_rate := axial_rate nd;
     design_load := design_load nd;
     design_length := design_length nd;
     radial_coil_gap := radial_coil_gap nd;
     max_compression := max_compression nd;
     lo_cycle_defln_amplitude := lo_cycle_defln_amplitude nd;
     hi_cycle_defln_amplitude := hi_cycle_defln_amplitude nd;
     end_condition := end_condition nd;
     compression_defln_reserve := compression_defln_reserve nd;
     solid_stress_reserve := Some v;
     estimated_solution := estimated_solution nd;
     other_keys := other_keys nd |}.

(** A keyword argument without a default: its absence is a [TypeError]. *)
Definition required {A : Type} (v : option A) : outcome A :=
  match v with
  | Some a => Returned a
  | None => Raised TypeError
  end.

(** [TwoCoilSetLength] called with [nest_data] unpacked as its keyword
    arguments: every key must be a parameter of [__init__] and every
    parameter must be given. *)
Definition construct (nd : t) : outcome (TwoCoilSetLength num) :=
  match other_keys nd with
  | _ :: _ => Raised TypeError
  | [] =>
      m <- required (material nd) ;;
      rate <- required (axial_rate nd) ;;
      load <- required (design_load nd) ;;
      len <- required (design_length nd) ;;
      gap <- required (radial_coil_gap nd) ;;
      comp <- required (max_compression nd) ;;
      lo <- required (lo_cycle_defln_amplitude nd) ;;
      hi <- required (hi_cycle_defln_amplitude nd) ;;
      ec <- required (end_condition nd) ;;
      cres <- required (compression_defln_reserve nd) ;;
      sres <- required (solid_stress_reserve nd) ;;
      guess <- required (estimated_solution nd) ;;
      Returned (__init__ m rate load len gap comp lo hi ec cres sres guess)
  end.

End NestData.

Arguments t num : clear implicits.

End NestData.

(** What the scripts do to the outside: [print] of a string, of an object,
    of a formatted row of numbers (the f-string of a sweep, as the numbers it
    formats), and [open(file, 'w')] followed by [write]. *)
Inductive event {num : Type} {hc : Helicoil num} {sp : Scipy num} : Type :=
| Print (s : string)
| PrintObj (o : pyobj)
| PrintRow (cells : list num)
| Open (file : string)
| Write (file text : string).

Module Drivers.

Section Drivers.

Context {num : Type} {ar : Arith num} {hc : Helicoil num} {sp : Scipy num}
        {rep : @HelicoilReport num hc}.

Local Open Scope num_scope.

(** [o.attr] for an attribute of coil records: the solver's result object
    and [None] have none of them. *)
Definition getattr (attr : CoilData -> num) (o : pyobj) : outcome num :=
  match o with
  | PyCoil c => Returned (attr c)
  | _ => Raised AttributeError
  end.

(** [hc.coil_data_csv(o)]; the scripts call it after a successful solve only,
    when [o] is a record. *)
Definition csv (o : pyobj) : outcome string :=
  match o with
  | PyCoil c => Returned (coil_data_csv c)
  | _ => Raised AttributeError
  end.

(** [ODerror(solid_stress_reserve, ODtarget, nest_data)] of
    [PR20_Primary_Spring.py]: the dictionary is the caller's, and is returned
    as the call leaves it; the value is [None] when the function falls off its
    end. *)
Definition ODerror (solid_stress_reserve ODtarget : num) (nest_data : NestData.t num)
  : NestData.t num * outcome (option num) :=
  let nest_data := NestData.set_solid_stress_reserve solid_stress_reserve nest_data in
  (nest_data,
   nest <- NestData.construct nest_data ;;
   r <- get_solution nest ;;
   let '(solved, OC_data, IC_data) := r in
   if (solved : bool)
   then OD <- getattr attr_OD OC_data ;; Returned (Some (OD - ODtarget))
   else Returned None).

(** The first part of both scripts: build the nest, solve, and write the two
    files or print the solver's data. *)
Definition report (outer_file inner_file : string) (nest_data : NestData.t num)
  : list event * outcome unit :=
  match (nest <- NestData.construct nest_data ;; get_solution nest) with
  | Raised e => ([], Raised e)
  | Returned (solved, OC_data, IC_data) =>
      if (solved : bool)
      then
        match csv OC_data with
        | Raised e => ([Open outer_file], Raised e)
        | Returned outer_text =>
            match csv IC_data with
            | Raised e =>
                ([Open outer_file; Write outer_file outer_text; Open inner_file],
                 Raised e)
            | Returned inner_text =>
                ([Open outer_file; Write outer_file outer_text;
                  Open inner_file; Write inner_file inner_text;
                  Print (String (Ascii.ascii_of_nat 10) "solution written")],
                 Returned tt)
            end
        end
      else ([Print "No solution found. Solver data returned:"; PrintObj OC_data],
            Returned tt)
  end.

(** The body of the sweep of [PR20_Primary_Spring.py] after the solve: the
    numbers of the printed row. *)
Definition PR20_row (solid_stress_reserve : num) (OC_data IC_data : pyobj)
  : outcome (list num) :=
  oc_L0 <- getattr attr_L0 OC_data ;;
  ic_L0 <- getattr attr_L0 IC_data ;;
  let freeDel := oc_L0 - ic_L0 in
  oc_OD <- getattr attr_OD OC_data ;;
  Returned [solid_stress_reserve; oc_OD; freeDel].

(** The body of the sweep of [CoilSpringDesign.py] after the solve. *)
Definition main_row (solid_stress_reserve : num) (OC_data IC_data : pyobj)
  : outcome (list num) :=
  oc_gap <- getattr attr_coil_gap OC_data ;;
  oc_d <- getattr attr_d OC_data ;;
  let OC_gap_ratio := oc_gap / oc_d in
  ic_gap <- getattr attr_coil_gap IC_data ;;
  ic_d <- getattr attr_d IC_data ;;
  let IC_gap_ratio := ic_gap / ic_d in
  Returned [solid_stress_reserve; OC_gap_ratio; IC_gap_ratio].

(** [for solid_stress_reserve in reserves:] of both scripts: the key is
    overwritten in the one dictionary, a nest is built and solved, and the row
    is printed.  The result is the dictionary as the loop leaves it, what was
    printed, and how the loop ended. *)
Fixpoint sweep (row : num -> pyobj -> pyobj -> outcome (list num))
  (reserves : list num) (nest_data : NestData.t num)
  : NestData.t num * list event * outcome unit :=
  match reserves with
  | [] => (nest_data, [], Returned tt)
  | solid_stress_reserve :: rest =>
      let nest_data :=
        NestData.set_solid_stress_reserve solid_stress_reserve nest_data in
      match (nest <- NestData.construct nest_data ;;
             r <- get_solution nest ;;
             let '(solved, OC_data, IC_data) := r in
             row solid_stress_reserve OC_data IC_data) with
      | Raised e => (nest_data, [], Raised e)
      | Returned cells =>
          let '(nest_data', out, res) := sweep row rest nest_data in
          (nest_data', PrintRow cells :: out, res)
      end
  end.

(** A script: the first part, the heading of the table, the sweep over
    [reserves] (the values of [np.arange]). *)
Definition script (outer_file inner_file heading : string)
  (row : num -> pyobj -> pyobj -> outcome (list num))
  (nest_data : NestData.t num) (reserves : list num)
  : NestData.t num * list event * outcome unit :=
  match report outer_file inner_file nest_data with
  | (out, Raised e) => (nest_data, out, Raised e)
  | (out, Returned _) =>
      let '(nest_data', rows, res) := sweep row reserves nest_data in
      (nest_data', out ++ Print heading :: rows, res)
  end.

(** [python CoilSpringDesign.py]. *)
Definition CoilSpringDesign_main :=
  script "test_Outer-coil.txt" "test_Inner-coil.txt"
    "Solid stress reserve, IC coil gap/do,  OC coil gap/di" main_row.

(** [python PR20_Primary_Spring.py]. *)
Definition PR20_Primary_Spring_main :=
  script "PR20_Outer-coil.txt" "PR20_Inner-coil.txt"
    "Solid stress reserve, Nest OD,  Free length OC-IC" PR20_row.

(** [nest_data] holds every keyword of [__init__] other than
    [solid_stress_reserve], and no other key. *)
Definition present {A : Type} (v : option A) : bool :=
  match v with
  | Some _ => true
  | None => false
  end.

Definition keys_fit (nd : NestData.t num) : bool :=
  match NestData.other_keys nd with [] => true | _ :: _ => false end
  && present (NestData.material nd)
  && present (NestData.axial_rate nd)
  && present (NestData.design_load nd)
  && present (NestData.design_length nd)
  && present (NestData.radial_coil_gap nd)
  && present (NestData.max_compression nd)
  && present (NestData.lo_cycle_defln_amplitude nd)
  && present (NestData.hi_cycle_defln_amplitude nd)
  && present (NestData.end_condition nd)
  && present (NestData.compression_defln_reserve nd)
  && present (NestData.estimated_solution nd).

(** The dictionary after the assignments of a sweep over [reserves]. *)
Definition after_sweep (reserves : list num) (nd : NestData.t num) : NestData.t num :=
  fold_left (fun d s => NestData.set_solid_stress_reserve s d) reserves nd.

(** The solve for the reserve [s] over the data [nd] converges, or ends
    without converging. *)
Definition converges (nd : NestData.t num) (s : num) : Prop :=
  exists nest sol OD do No L0o di Ni L0i,
    NestData.construct (NestData.set_solid_stress_reserve s nd) = Returned nest /\
    root (error nest) (x0 nest) = Returned sol /\
    success sol = true /\
    x sol = [OD; do; No; L0o; di; Ni; L0i].

Definition stalls (nd : NestData.t num) (s : num) : Prop :=
  exists nest sol,
    NestData.construct (NestData.set_solid_stress_reserve s nd) = Returned nest /\
    root (error nest) (x0 nest) = Returned sol /\
    success sol = false.

End Drivers.

End Drivers.

(** The data both scripts start from, in binary64 (the literals are rounded
    to binary64 as Python rounds them). *)
#[warnings="-inexact-float"]
Definition script_nest_data {hc : Helicoil float} {rep : @HelicoilReport float hc}
  : NestData.t float :=
  {| NestData.material := Some prEN10089;
     NestData.axial_rate := Some 280%float;
     NestData.design_load := Some 34760%float;
     NestData.design_length := Some 367.8%float;
     NestData.radial_coil_gap := Some 8%float;
     NestData.max_compression := Some 45%float;
     NestData.lo_cycle_defln_amplitude := Some 35%float;
     NestData.hi_cycle_defln_amplitude := Some 25%float;
     NestData.end_condition := Some 0.7%float;
     NestData.compression_defln_reserve := Some 20%float;
     NestData.solid_stress_reserve := Some 70%float;
     NestData.estimated_solution := Some [200; 30; 8; 500; 20; 11; 500]%float;
     NestData.other_keys := [] |}.

(** Stand-ins for the attributes of a record and for the serialiser, and the
    dictionaries of the two demonstration nests. *)
Module DemoDrivers.

Section StandIn.

Context {num : Type} {ar : Arith num}.

Local Open Scope num_scope.

Definition report (m : Material num) : @HelicoilReport num Demo.helicoil := {|
  attr_OD := fun c : @CoilData num Demo.helicoil => Demo.D c + Demo.d c;
  attr_L0 := fun c : @CoilData num Demo.helicoil =>
    Demo.length c +
    Demo.load c / @axial_rate num Demo.helicoil (G (Demo.material c)) (Demo.d c)
                    (Demo.D c) (Demo.N c);
  attr_d := fun c : @CoilData num Demo.helicoil => Demo.d c;
  attr_coil_gap := fun c : @CoilData num Demo.helicoil =>
    Demo.length c / Demo.N c - Demo.d c;
  coil_data_csv := fun c : @CoilData num Demo.helicoil => Demo.name c;
  prEN10089 := m
|}.

End StandIn.

Definition exact_report : @HelicoilReport Exact.xQ Demo.helicoil :=
  report Demo.steel.

Definition nest_data (rate : Q) : NestData.t Exact.xQ :=
  {| NestData.material := Some Demo.steel;
     NestData.axial_rate := Some (Exact.Fin rate);
     NestData.design_load := Some (Exact.Fin 19200);
     NestData.design_length := Some (Exact.Fin 400);
     NestData.radial_coil_gap := Some (Exact.Fin 10);
     NestData.max_compression := Some (Exact.Fin 100);
     NestData.lo_cycle_defln_amplitude := Some (Exact.Fin 35);
     NestData.hi_cycle_defln_amplitude := Some (Exact.Fin 25);
     NestData.end_condition := Some (Exact.Fin (3 # 4));
     NestData.compression_defln_reserve := Some (Exact.Fin 25);
     NestData.solid_stress_reserve := Some (Exact.Fin 100);
     NestData.estimated_solution :=
       Some [Exact.Fin 120; Exact.Fin 20; Exact.Fin 10; Exact.Fin 500;
             Exact.Fin 10; Exact.Fin 20; Exact.Fin 480];
     NestData.other_keys := [] |}.

End DemoDrivers.

(** Finite in binary64: a zero or a finite number, neither an infinity nor
    a NaN. *)
Definition sf_finite (u : spec_float) : Prop :=
  match u with
  | S754_zero _ | S754_finite _ _ _ => True
  | _ => False
  end.

Definition binary64_finite (a : float) : Prop := sf_finite (Prim2SF a).

(** The stand-in nest in binary64 with a design load one unit in the last
    place above 19200. *)
Definition nest64_up : TwoCoilSetLength float :=
  __init__ Demo.steel64 200%float (next_up 19200%float) 400%float 10%float
    100%float 35%float 25%float 0.75%float 25%float 100%float
    [120; 20; 10; 500; 10; 20; 480]%float.

(** Equality of two values of the exact arithmetic: the same finite number,
    or both not a number. *)
Definition agree (a b : Exact.xQ) : Prop :=
  match a, b with
  | Exact.Fin p, Exact.Fin q => p == q
  | Exact.NaN, Exact.NaN => True
  | _, _ => False
  end.

(** * Properties that hold in every arithmetic *)

Section Structure.

Context {num : Type} {ar : Arith num} {hc : Helicoil num} {sp : Scipy num}.

Local Open Scope num_scope.

(** The tie-break as [error] performs it, variable by variable. *)
Lemma error_tie_break (self : TwoCoilSetLength num) (OD do No L0o di Ni L0i : num) :
  let fr := error_body self OD do No L0o di Ni L0i in
  e_Fo1 fr = (if L0o >? L0i then e_Ro fr * (L0o - L0i) else zero) /\
  e_Fi1 fr = (if L0o >? L0i then zero else e_Ri fr * (L0i - L0o)) /\
  e_L1 fr = (if L0o >? L0i then L0i else L0o).
Proof.
  unfold error_body; destruct (L0o >? L0i); cbn; repeat split.
Qed.

(** The tie-break as [get_solution] performs it, variable by variable. *)
Lemma solution_tie_break (self : TwoCoilSetLength num) (OD do No L0o di Ni L0i : num) :
  let fr := get_solution_body self OD do No L0o di Ni L0i in
  s_Fo1 fr = (if L0o >? L0i then s_Ro fr * (L0o - L0i) else zero) /\
  s_Fi1 fr = (if L0o >? L0i then zero else s_Ri fr * (L0i - L0o)) /\
  s_L1 fr = (if L0o >? L0i then L0i else L0o).
Proof.
  unfold get_solution_body; destruct (L0o >? L0i); cbn; repeat split.
Qed.

(** The rates the two methods compute are the same calls of [hc.axial_rate]. *)
Lemma rates_agree (self : TwoCoilSetLength num) (OD do No L0o di Ni L0i : num) :
  s_Ro (get_solution_body self OD do No L0o di Ni L0i)
    = e_Ro (error_body self OD do No L0o di Ni L0i) /\
  s_Ri (get_solution_body self OD do No L0o di Ni L0i)
    = e_Ri (error_body self OD do No L0o di Ni L0i).
Proof.
  unfold get_solution_body, error_body; destruct (L0o >? L0i); cbn; split; reflexivity.
Qed.

(** What [get_solution] does with the solver's answer [sol]. *)
Lemma get_solution_unfold (self : TwoCoilSetLength num) (sol : OptimizeResult) :
  root (error self) (x0 self) = Returned sol ->
  get_solution self =
    if negb (success sol)
    then Returned (false, PySol sol, PyNone)
    else match x sol with
         | [OD; do; No; L0o; di; Ni; L0i] =>
             Returned (true,
                       PyCoil (s_OC_data (get_solution_body self OD do No L0o di Ni L0i)),
                       PyCoil (s_IC_data (get_solution_body self OD do No L0o di Ni L0i)))
         | _ => Raised ValueError
         end.
Proof.
  intros Hroot; unfold get_solution; rewrite Hroot; reflexivity.
Qed.

(** With seven values in [x] no statement of [error] raises, whatever the
    arithmetic gives: the result is a vector of seven residuals. *)
Lemma error_returns_seven (self : TwoCoilSetLength num) (OD do No L0o di Ni L0i : num) :
  exists v, error self [OD; do; No; L0o; di; Ni; L0i] = Returned v /\
            List.length v = 7%nat.
Proof.
  eexists; split; [ reflexivity | ].
  unfold error_body; destruct (L0o >? L0i); reflexivity.
Qed.

(** With any other number of values the unpacking raises. *)
Lemma error_needs_seven (self : TwoCoilSetLength num) (x : list num) :
  List.length x <> 7%nat -> error self x = Raised ValueError.
Proof.
  intros Hlen.
  destruct x as [ | a1 [ | a2 [ | a3 [ | a4 [ | a5 [ | a6 [ | a7 [ | a8 l]]]]]]]];
    try reflexivity.
  exfalso; apply Hlen; reflexivity.
Qed.

(** C1.  For every 7-vector [x = [OD, do, No, L0o, di, Ni, L0i]] and every
    configuration, [error x] returns a 7-vector whose components are, in
    order: [Ro + Ri] minus the target rate; the outer solid length plus the
    outer minimum reserve length, minus the target minimum length
    [(L - max_comp) - comp_res]; the same for the inner coil;
    [L_at_F - L] with [L_at_F = L1 - F2/(Ro + Ri)] and
    [F2 = F - Fo1 - Fi1]; the outer solid stress reserve (the material limit
    at [do] minus the static stress at the force [Ro*(L0o - Lco)]) minus the
    required reserve; the same for the inner coil; and
    [(L0i - buckling deflection) - (L - max_comp)]. *)
Theorem error_components (self : TwoCoilSetLength num) (OD do No L0o di Ni L0i : num) :
  let Do := OD - do in
  let Di := Do - do - two * coil_gap self - di in
  let Ro := axial_rate (G (mat self)) do Do No in
  let Ri := axial_rate (G (mat self)) di Di Ni in
  let Lco := solid_length No do in
  let Lci := solid_length Ni di in
  let Fo1 := if L0o >? L0i then Ro * (L0o - L0i) else zero in
  let Fi1 := if L0o >? L0i then zero else Ri * (L0i - L0o) in
  let L1 := if L0o >? L0i then L0i else L0o in
  let min_service_len := L self - max_comp self in
  let min_length := min_service_len - comp_res self in
  let F2 := F self - Fo1 - Fi1 in
  let L_at_F := L1 - F2 / (Ro + Ri) in
  let reserve_o :=
    solid_stress_limit (mat self) do - axial_stress_static Do do (Ro * (L0o - Lco)) in
  let reserve_i :=
    solid_stress_limit (mat self) di - axial_stress_static Di di (Ri * (L0i - Lci)) in
  let buck :=
    buckling_deflection (G (mat self)) (E (mat self)) Di L0i (end_con self) in
  error self [OD; do; No; L0o; di; Ni; L0i] =
    Returned [ Ro + Ri - R self;
               (Lco + Sa_min_reserve_length Do do No) - min_length;
               (Lci + Sa_min_reserve_length Di di Ni) - min_length;
               L_at_F - L self;
               reserve_o - solid_str_res self;
               reserve_i - solid_str_res self;
               (L0i - buck) - min_service_len ].
Proof.
  cbv zeta; unfold error, error_body.
  destruct (L0o >? L0i); reflexivity.
Qed.

(** C3.  On a successful solve the post-processing computes the carried loads
    from the converged vector as [Fo = Fo1 + Ro*(L1 - L)] and
    [Fi = Fi1 + Ri*(L1 - L)], with [Fo1], [Fi1], [L1] from the tie-break and
    [Ro], [Ri] the recomputed rates, and these are the loads handed to
    [hc.coil_data] for the outer and for the inner record. *)
Theorem carried_loads (self : TwoCoilSetLength num) (sol : OptimizeResult)
  (OD do No L0o di Ni L0i : num) :
  root (error self) (x0 self) = Returned sol ->
  success sol = true ->
  x sol = [OD; do; No; L0o; di; Ni; L0i] ->
  let Do := OD - do in
  let Di := Do - do - two * coil_gap self - di in
  let Ro := axial_rate (G (mat self)) do Do No in
  let Ri := axial_rate (G (mat self)) di Di Ni in
  let Fo1 := if L0o >? L0i then Ro * (L0o - L0i) else zero in
  let Fi1 := if L0o >? L0i then zero else Ri * (L0i - L0o) in
  let L1 := if L0o >? L0i then L0i else L0o in
  let Fo := Fo1 + Ro * (L1 - L self) in
  let Fi := Fi1 + Ri * (L1 - L self) in
  let L_min := L self - max_comp self in
  get_solution self =
    Returned (true,
              PyCoil (coil_data "Outer Coil" do Do No Fo (L self) L_min
                        (lo_cycle_amp self) (hi_cycle_amp self) (mat self)),
              PyCoil (coil_data "Inner Coil" di Di Ni Fi (L self) L_min
                        (lo_cycle_amp self) (hi_cycle_amp self) (mat self))).
Proof.
  intros Hroot Hok Hx; cbv zeta.
  rewrite (get_solution_unfold self Hroot), Hok, Hx; cbn [negb].
  unfold get_solution_body; destruct (L0o >? L0i); reflexivity.
Qed.

(** C4.  The tie-break written in [get_solution] and the one written in
    [error] are the same function of the rates and the free lengths, the
    [resolvePreload] of the specification: for the same vector both methods
    compute the same rates and the same [(Fo1, Fi1, L1)], and they derive the
    same mean diameters [Do] and [Di] from the same [(OD, do, di)]. *)
Theorem duplicated_logic_agrees (self : TwoCoilSetLength num)
  (OD do No L0o di Ni L0i : num) :
  let e := error_body self OD do No L0o di Ni L0i in
  let s := get_solution_body self OD do No L0o di Ni L0i in
  (e_Fo1 e, e_Fi1 e, e_L1 e) = resolvePreload (e_Ro e) (e_Ri e) L0o L0i /\
  (s_Fo1 s, s_Fi1 s, s_L1 s) = resolvePreload (s_Ro s) (s_Ri s) L0o L0i /\
  (s_Ro s, s_Ri s) = (e_Ro e, e_Ri e) /\
  (s_Fo1 s, s_Fi1 s, s_L1 s) = (e_Fo1 e, e_Fi1 e, e_L1 e) /\
  (s_Do s, s_Di s) = (e_Do e, e_Di e).
Proof.
  cbv zeta.
  destruct (error_tie_break self OD do No L0o di Ni L0i) as (E1 & E2 & E3).
  destruct (solution_tie_break self OD do No L0o di Ni L0i) as (S1 & S2 & S3).
  destruct (rates_agree self OD do No L0o di Ni L0i) as (Ro_eq & Ri_eq).
  cbv zeta in E1, E2, E3, S1, S2, S3.
  unfold resolvePreload; cbv zeta.
  rewrite S1, S2, S3, E1, E2, E3, Ro_eq, Ri_eq.
  repeat split.
  unfold error_body, get_solution_body; destruct (L0o >? L0i); reflexivity.
Qed.

(** C5.  In [error] and in [get_solution] alike the derived geometry is
    [Do = OD - do] and [Di = Do - do - 2*coil_gap - di]. *)
Theorem derived_geometry (self : TwoCoilSetLength num) (OD do No L0o di Ni L0i : num) :
  let e := error_body self OD do No L0o di Ni L0i in
  let s := get_solution_body self OD do No L0o di Ni L0i in
  (e_Do e = OD - do /\ e_Di e = e_Do e - do - two * coil_gap self - di) /\
  (s_Do s = OD - do /\ s_Di s = s_Do s - do - two * coil_gap self - di).
Proof.
  cbv zeta; unfold error_body, get_solution_body.
  destruct (L0o >? L0i); repeat split.
Qed.

(** C7.  When the root finder reports failure, [get_solution] returns
    [(False, sol, None)]: the solver's own result object in the slot of the
    first record, nothing in the second, and no exception.  When it
    reports success (with the seven values in [sol.x]), [get_solution]
    returns [True] with two records built by [hc.coil_data], the first named
    "Outer Coil" on the outer wire and mean diameters, the second named
    "Inner Coil" on the inner ones. *)
Theorem get_solution_outcomes (self : TwoCoilSetLength num) (sol : OptimizeResult) :
  root (error self) (x0 self) = Returned sol ->
  (success sol = false ->
     get_solution self = Returned (false, PySol sol, PyNone)) /\
  (success sol = true ->
     forall OD do No L0o di Ni L0i,
       x sol = [OD; do; No; L0o; di; Ni; L0i] ->
       exists Fo Fi,
         get_solution self =
           Returned (true,
                     PyCoil (coil_data "Outer Coil" do (OD - do) No Fo
                               (L self) (L self - max_comp self)
                               (lo_cycle_amp self) (hi_cycle_amp self) (mat self)),
                     PyCoil (coil_data "Inner Coil" di
                               (OD - do - do - two * coil_gap self - di) Ni Fi
                               (L self) (L self - max_comp self)
                               (lo_cycle_amp self) (hi_cycle_amp self) (mat self)))).
Proof.
  intros Hroot; rewrite (get_solution_unfold self Hroot); split.
  - intros Hko; rewrite Hko; reflexivity.
  - intros Hok OD do No L0o di Ni L0i Hx; rewrite Hok, Hx; cbn [negb].
    unfold get_solution_body.
    destruct (L0o >? L0i); eexists; eexists; reflexivity.
Qed.

End Structure.

(** * Binary64: the comparison of the running program *)

(** The specification of the comparison: "equal" is symmetric. *)
Lemma SFcompare_Eq_sym (u v : spec_float) :
  SFcompare u v = Some Eq -> SFcompare v u = Some Eq.
Proof.
  destruct u as [[]|[]| |[] m e], v as [[]|[]| |[] n f]; cbn;
    try (intros H; discriminate H); try reflexivity;
    rewrite (Z.compare_antisym e f);
    destruct (e ?= f)%Z; cbn; try (intros H; discriminate H);
    pose proof (Pos.compare_cont_antisym m n Eq) as A; cbn [CompOpp] in A;
    rewrite <- A;
    destruct (Pos.compare_cont Eq m n); cbn; intros H;
    (discriminate H || reflexivity).
Qed.

(** In binary64 two free lengths that compare equal are never in the relation
    [>], whichever order they come in (a NaN compares equal to nothing). *)
Lemma binary64_equal_not_greater (a b : float) :
  PrimFloat.eqb a b = true -> gtb a b = false.
Proof.
  cbn [gtb Binary64.arith]; rewrite FloatAxioms.eqb_spec, FloatAxioms.ltb_spec.
  unfold SFeqb, SFltb.
  destruct (SFcompare (Prim2SF a) (Prim2SF b)) as [[ | | ] | ] eqn:Hc;
    try (intros H; discriminate H).
  intros _; rewrite (SFcompare_Eq_sym _ _ Hc); reflexivity.
Qed.

(** The difference of two finite numbers that compare equal is a zero, and
    a finite number times a zero is a zero. *)
Lemma SFsub_of_equals (u v : spec_float) :
  SFcompare u v = Some Eq -> sf_finite u ->
  exists s, SFsub prec emax v u = S754_zero s.
Proof.
  destruct u as [[]|[]| |[] m e], v as [[]|[]| |[] n f];
    cbn [SFcompare SFsub sf_finite]; intros Hc Hf;
    try discriminate Hc; try contradiction Hf;
    try (eexists; reflexivity).
  all: destruct (e ?= f)%Z eqn:He; try discriminate Hc;
    apply Z.compare_eq in He; subst f;
    destruct (Pos.compare_cont Eq m n) eqn:Hm; try discriminate Hc;
    apply Pos.compare_eq in Hm; subst n;
    rewrite Z.sub_diag; eexists; reflexivity.
Qed.

Lemma SFmul_by_zero (r : spec_float) (s : bool) :
  sf_finite r -> exists t, SFmul prec emax r (S754_zero s) = S754_zero t.
Proof.
  destruct r as [t|t| |t m e]; cbn [sf_finite SFmul]; intros Hr;
    try contradiction Hr; eexists; reflexivity.
Qed.

(** In binary64 a finite rate times the difference of two equal finite
    lengths compares equal to zero (it is [0.0] or [-0.0]). *)
Lemma binary64_zero_product (r a b : float) :
  PrimFloat.eqb a b = true -> binary64_finite a -> binary64_finite r ->
  PrimFloat.eqb (r * (b - a)) 0 = true.
Proof.
  unfold binary64_finite; intros Heq Ha Hr.
  rewrite FloatAxioms.eqb_spec in Heq; unfold SFeqb in Heq.
  destruct (SFcompare (Prim2SF a) (Prim2SF b)) as [[ | | ] | ] eqn:Hc;
    try discriminate Heq.
  destruct (@SFsub_of_equals _ _ Hc Ha) as [s Hs].
  destruct (@SFmul_by_zero (Prim2SF r) s Hr) as [t Ht].
  rewrite FloatAxioms.eqb_spec, FloatAxioms.mul_spec, FloatAxioms.sub_spec.
  unfold SF64mul, SF64sub; rewrite Hs, Ht.
  destruct t; reflexivity.
Qed.

(** * Exact arithmetic *)

Section ExactArithmetic.

Import Exact.

Context {hc : Helicoil xQ}.

Lemma xgtb_true (p q : Q) : xgtb (Fin p) (Fin q) = true <-> q < p.
Proof.
  unfold xgtb; destruct (Qgt_alt p q) as [Hlt Hgt].
  destruct (p ?= q); split; intros H;
    try reflexivity; try discriminate H;
    try (apply Hgt; reflexivity); specialize (Hlt H); discriminate Hlt.
Qed.

Lemma xgtb_false (p q : Q) : xgtb (Fin p) (Fin q) = false <-> p <= q.
Proof.
  unfold xgtb; destruct (Qle_alt p q) as [Hle Hcmp].
  destruct (p ?= q); split; intros H;
    try reflexivity; try discriminate H;
    try (apply Hcmp; intros K; discriminate K);
    exfalso; apply (Hle H); reflexivity.
Qed.



(** The fourth residual read as an equation: with a combined rate that is
    not zero, the loads at the design length add up to the design load. *)
Lemma loads_add_up (f fo1 fi1 ro ri l1 l : Q) :
  ~ ro + ri == 0 ->
  l1 - (f - fo1 - fi1) / (ro + ri) - l == 0 ->
  (fo1 + ro * (l1 - l)) + (fi1 + ri * (l1 - l)) == f.
Proof.
  intros Hrate H4.
  pose proof (Qmult_div_r (f - fo1 - fi1) (ro + ri) Hrate) as Hd.
  assert (Hl : l1 - l == (f - fo1 - fi1) / (ro + ri)) by lra.
  rewrite Hl.
  set (q := (f - fo1 - fi1) / (ro + ri)) in *.
  lra.
Qed.

Lemma Forall_fourth {A : Type} (P : A -> Prop) (a b c d e f g : A) :
  Forall P [a; b; c; d; e; f; g] -> P d.
Proof.
  intros H; inversion_clear H as [ | ? ? _ H1];
    inversion_clear H1 as [ | ? ? _ H2];
    inversion_clear H2 as [ | ? ? _ H3];
    inversion_clear H3 as [ | ? ? Hd _]; exact Hd.
Qed.

Lemma lift2_NaN_r (f : Q -> Q -> Q) (a : xQ) : lift2 f a NaN = NaN.
Proof. destruct a; reflexivity. Qed.

Lemma xdiv_by_zero (a : xQ) (r : Q) : r == 0 -> xdiv a (Fin r) = NaN.
Proof.
  intros Hr; destruct a as [p | ]; cbn; [ | reflexivity ].
  rewrite (proj2 (Qeq_bool_iff r 0) Hr); reflexivity.
Qed.

(** Nothing guards the division: where the combined rate is zero the length
    at the design load, and with it the fourth residual, is not a number. *)
Lemma zero_combined_rate (self : TwoCoilSetLength xQ)
  (OD do No L0o di Ni L0i : xQ) (r : Q) :
  let e := error_body self OD do No L0o di Ni L0i in
  (e_Ro e + e_Ri e)%num = Fin r -> r == 0 ->
  e_L_at_F e = NaN /\ nth 3 (e_v e) zero = NaN.
Proof.
  cbv zeta; unfold error_body.
  destruct (L0o >? L0i)%num; cbn [e_Ro e_Ri e_L_at_F e_v nth];
    intros Hsum Hr; rewrite Hsum;
    cbn [sub div arith];
    rewrite (xdiv_by_zero _ Hr), lift2_NaN_r; split; reflexivity.
Qed.

(** C9, in exact arithmetic.  At a vector at which the seven residuals of
    [error] are all exactly zero, the two loads the post-processing computes
    are finite and add up to the design load: [Fo + Fi = F].  (In binary64
    rounding can make the residuals zero without it.) *)
Theorem design_load_is_carried (self : TwoCoilSetLength xQ)
  (OD do No L0o di Ni L0i : xQ) (v : list xQ) :
  error self [OD; do; No; L0o; di; Ni; L0i] = Returned v ->
  Forall (fun r => equals r 0) v ->
  let s := get_solution_body self OD do No L0o di Ni L0i in
  same (s_Fo s + s_Fi s)%num (F self).
Proof.
  intros Herr Hz; cbv zeta.
  unfold error in Herr; injection Herr as <-.
  unfold error_body in Hz; unfold get_solution_body.
  set (Ro := axial_rate (G (mat self)) do _ No) in *.
  set (Ri := axial_rate (G (mat self)) di _ Ni) in *.
  clearbody Ro Ri.
  destruct (L0o >? L0i)%num eqn:Hb; cbn [e_v s_Fo s_Fi] in *;
    apply Forall_fourth in Hz;
    destruct L0o as [l0o | ], L0i as [l0i | ], Ro as [ro | ], Ri as [ri | ],
             (F self) as [f | ], (L self) as [l | ];
    cbv [add sub mul div zero arith lift2 xdiv equals same] in *;
    try contradiction;
    destruct (Qeq_bool (ro + ri) 0) eqn:Hq; try contradiction;
    apply Qeq_bool_neq in Hq;
    apply loads_add_up; assumption.
Qed.


End ExactArithmetic.

(** C2, as the code has it.  In [error], for every input vector: when
    [L0o > L0i] the preloads are [Fo1 = Ro*(L0o - L0i)] and [Fi1 = 0.0] and
    the contact length is [L1 = L0i]; otherwise [Fo1 = 0.0],
    [Fi1 = Ri*(L0i - L0o)] and [L1 = L0o].  The test is the strict [>]: free
    lengths that are equal take the second branch, in binary64 and in exact
    arithmetic alike, and there the preload is zero on both coils provided
    the free lengths and the inner rate are finite (in binary64 the inner
    preload is then [0.0] or [-0.0]). *)
Theorem tie_break_in_error :
  (forall (num : Type) (ar : Arith num) (hc : Helicoil num)
          (self : TwoCoilSetLength num) (OD do No L0o di Ni L0i : num),
     let Ro := axial_rate (G (mat self)) do (OD - do) No in
     let Ri := axial_rate (G (mat self)) di
                 (OD - do - do - two * coil_gap self - di) Ni in
     let fr := error_body self OD do No L0o di Ni L0i in
     if L0o >? L0i
     then e_Fo1 fr = Ro * (L0o - L0i) /\ e_Fi1 fr = zero /\ e_L1 fr = L0i
     else e_Fo1 fr = zero /\ e_Fi1 fr = Ri * (L0i - L0o) /\ e_L1 fr = L0o)%num
  /\
  (forall (hc : Helicoil float) (self : TwoCoilSetLength float)
          (OD do No L0o di Ni L0i : float),
     PrimFloat.eqb L0o L0i = true ->
     let fr := error_body self OD do No L0o di Ni L0i in
     e_Fo1 fr = 0%float /\ e_Fi1 fr = (e_Ri fr * (L0i - L0o))%num /\ e_L1 fr = L0o /\
     (binary64_finite L0o -> binary64_finite (e_Ri fr) ->
        PrimFloat.eqb (e_Fi1 fr) 0%float = true))
  /\
  (forall (hc : Helicoil Exact.xQ) (self : TwoCoilSetLength Exact.xQ)
          (OD do No di Ni : Exact.xQ) (L0o L0i : Q),
     let fr := error_body self OD do No (Exact.Fin L0o) di Ni (Exact.Fin L0i) in
     (L0i < L0o ->
        e_Fo1 fr = (e_Ro fr * Exact.Fin (L0o - L0i))%num /\
        e_Fi1 fr = Exact.Fin 0 /\ e_L1 fr = Exact.Fin L0i) /\
     (L0o <= L0i ->
        e_Fo1 fr = Exact.Fin 0 /\
        e_Fi1 fr = (e_Ri fr * Exact.Fin (L0i - L0o))%num /\
        e_L1 fr = Exact.Fin L0o) /\
     (L0o == L0i ->
        e_Fo1 fr = Exact.Fin 0 /\ e_L1 fr = Exact.Fin L0o /\
        forall ri : Q, e_Ri fr = Exact.Fin ri -> Exact.equals (e_Fi1 fr) 0)).
Proof.
  split; [ | split ].
  - intros num ar hc self OD do No L0o di Ni L0i; cbv zeta.
    unfold error_body; destruct (L0o >? L0i)%num; cbn; repeat split.
  - intros hc self OD do No L0o di Ni L0i Heq; cbv zeta.
    pose proof (@binary64_equal_not_greater _ _ Heq) as Hgt.
    destruct (error_tie_break self OD do No L0o di Ni L0i) as (H1 & H2 & H3).
    cbv zeta in H1, H2, H3; rewrite Hgt in H1, H2, H3.
    split; [ exact H1 | split; [ exact H2 | split; [ exact H3 | ] ] ].
    intros Hlen Hrate; rewrite H2.
    exact (@binary64_zero_product _ _ _ Heq Hlen Hrate).
  - intros hc self OD do No di Ni L0o L0i; cbv zeta.
    destruct (error_tie_break self OD do No (Exact.Fin L0o) di Ni (Exact.Fin L0i))
      as (H1 & H2 & H3); cbv zeta in H1, H2, H3.
    change (Exact.Fin L0o >? Exact.Fin L0i)%num
      with (Exact.xgtb (Exact.Fin L0o) (Exact.Fin L0i)) in H1, H2, H3.
    repeat split.
    + rewrite H1, (proj2 (xgtb_true L0o L0i) H); reflexivity.
    + rewrite H2, (proj2 (xgtb_true L0o L0i) H); reflexivity.
    + rewrite H3, (proj2 (xgtb_true L0o L0i) H); reflexivity.
    + rewrite H1, (proj2 (xgtb_false L0o L0i) H); reflexivity.
    + rewrite H2, (proj2 (xgtb_false L0o L0i) H); reflexivity.
    + rewrite H3, (proj2 (xgtb_false L0o L0i) H); reflexivity.
    + rewrite H1, (proj2 (xgtb_false L0o L0i)); [ reflexivity | lra ].
    + rewrite H3, (proj2 (xgtb_false L0o L0i)); [ reflexivity | lra ].
    + intros ri Hri; rewrite H2, (proj2 (xgtb_false L0o L0i)), Hri by lra.
      cbv [mul sub Exact.arith Exact.lift2 Exact.equals].
      assert (Hd : L0i - L0o == 0) by lra.
      rewrite Hd; ring.
Qed.


(** C8, as the code has it.  Nothing checks a configuration: [__init__]
    stores each of its twelve arguments, unchanged, in the attribute of its
    own, and [get_solution] hands [error] and the initial guess to the root
    finder whatever the configuration is.  Its outcome is then the solver's:
    the exception that came out of [root]; [(False, sol, None)] when
    [sol.success] is false; the two records when it is true ([ValueError]
    when [sol.x] does not hold seven values). *)
Theorem configuration_is_not_checked :
  forall (num : Type) (ar : Arith num) (hc : Helicoil num) (sp : Scipy num)
         (material : Material num)
         (rate design_load design_length radial_coil_gap max_compression
          lo_amplitude hi_amplitude end_condition
          compression_defln_reserve solid_stress_reserve : num)
         (estimated_solution : list num),
    let self := __init__ material rate design_load design_length
                  radial_coil_gap max_compression lo_amplitude hi_amplitude
                  end_condition compression_defln_reserve solid_stress_reserve
                  estimated_solution in
    (mat self = material /\
     end_con self = end_condition /\
     R self = rate /\
     F self = design_load /\
     L self = design_length /\
     coil_gap self = radial_coil_gap /\
     max_comp self = max_compression /\
     lo_cycle_amp self = lo_amplitude /\
     hi_cycle_amp self = hi_amplitude /\
     comp_res self = compression_defln_reserve /\
     solid_str_res self = solid_stress_reserve /\
     x0 self = estimated_solution) /\
    match root (error self) estimated_solution with
    | Raised e => get_solution self = Raised e
    | Returned sol =>
        if success sol
        then match x sol with
             | [_; _; _; _; _; _; _] =>
                 exists oc ic,
                   get_solution self = Returned (true, PyCoil oc, PyCoil ic)
             | _ => get_solution self = Raised ValueError
             end
        else get_solution self = Returned (false, PySol sol, PyNone)
    end.
Proof.
  intros; subst self; split; [ repeat split | ].
  unfold get_solution; cbn [x0 __init__].
  destruct (root _ estimated_solution) as [sol | e]; cbn [bind]; [ | reflexivity ].
  destruct (success sol); cbn [negb]; [ | reflexivity ].
  destruct (x sol) as [ | a1 [ | a2 [ | a3 [ | a4 [ | a5 [ | a6 [ | a7 [ | a8 l]]]]]]]];
    try reflexivity.
  eexists; eexists; reflexivity.
Qed.

(** * The stand-in nest, run

    The theorems above at concrete inputs, with the stand-ins of [Demo] for
    the collaborators. *)

Section Demonstration.

#[local] Existing Instance Demo.helicoil.
#[local] Existing Instance Demo.exact_scipy.

(** The demonstration nest runs through the successful branch. *)
Lemma carried_loads_witness :
  get_solution Demo.nest =
    Returned (true,
              PyCoil (s_OC_data (get_solution_body Demo.nest
                        (Exact.Fin 120) (Exact.Fin 20) (Exact.Fin 10) (Exact.Fin 500)
                        (Exact.Fin 10) (Exact.Fin 20) (Exact.Fin 480))),
              PyCoil (s_IC_data (get_solution_body Demo.nest
                        (Exact.Fin 120) (Exact.Fin 20) (Exact.Fin 10) (Exact.Fin 500)
                        (Exact.Fin 10) (Exact.Fin 20) (Exact.Fin 480)))).
Proof.
  exact (@carried_loads Exact.xQ Exact.arith Demo.helicoil Demo.exact_scipy
           Demo.nest (Demo.answer Demo.nest)
           (Exact.Fin 120) (Exact.Fin 20) (Exact.Fin 10) (Exact.Fin 500)
           (Exact.Fin 10) (Exact.Fin 20) (Exact.Fin 480)
           eq_refl eq_refl eq_refl).
Defined.

(** Both outcomes of the stand-in solver: the nest it solves, and the one it
    does not. *)
Lemma get_solution_outcomes_witness :
  (exists oc ic, get_solution Demo.nest = Returned (true, PyCoil oc, PyCoil ic)) /\
  get_solution Demo.bad_nest =
    Returned (false, PySol (Demo.answer Demo.bad_nest), PyNone).
Proof.
  split.
  - destruct (@get_solution_outcomes Exact.xQ Exact.arith Demo.helicoil
                Demo.exact_scipy Demo.nest (Demo.answer Demo.nest) eq_refl)
      as [_ Hok].
    destruct (Hok eq_refl _ _ _ _ _ _ _ eq_refl) as (Fo & Fi & H).
    eexists; eexists; exact H.
  - exact (proj1 (@get_solution_outcomes Exact.xQ Exact.arith Demo.helicoil
                    Demo.exact_scipy Demo.bad_nest (Demo.answer Demo.bad_nest)
                    eq_refl) eq_refl).
Defined.

(** The demonstration nest: its initial guess zeroes the seven residuals, and
    the loads 16000 and 3200 add up to the design load 19200. *)
Lemma design_load_is_carried_witness :
  Exact.same
    (s_Fo (get_solution_body Demo.nest
             (Exact.Fin 120) (Exact.Fin 20) (Exact.Fin 10) (Exact.Fin 500)
             (Exact.Fin 10) (Exact.Fin 20) (Exact.Fin 480)) +
     s_Fi (get_solution_body Demo.nest
             (Exact.Fin 120) (Exact.Fin 20) (Exact.Fin 10) (Exact.Fin 500)
             (Exact.Fin 10) (Exact.Fin 20) (Exact.Fin 480)))%num
    (Exact.Fin 19200).
Proof.
  apply (@design_load_is_carried Demo.helicoil Demo.nest
           (Exact.Fin 120) (Exact.Fin 20) (Exact.Fin 10) (Exact.Fin 500)
           (Exact.Fin 10) (Exact.Fin 20) (Exact.Fin 480)
           (e_v (error_body Demo.nest
                   (Exact.Fin 120) (Exact.Fin 20) (Exact.Fin 10) (Exact.Fin 500)
                   (Exact.Fin 10) (Exact.Fin 20) (Exact.Fin 480)))).
  - reflexivity.
  - vm_compute; repeat constructor.
Defined.

(** C8 as the specification has it fails: a nest with the target rate
    [-280] is built, the root finder is run on it (one evaluation of the
    residuals), and [get_solution] returns the triple of a solve that did
    not converge; it raises nothing. *)
Lemma malformed_configuration_reaches_the_solver :
  R Demo.bad_nest = Exact.Fin (-280) /\
  root (error Demo.bad_nest) (x0 Demo.bad_nest)
    = Returned (Demo.answer Demo.bad_nest) /\
  Demo.res_nfev (Demo.answer Demo.bad_nest) = 1%nat /\
  get_solution Demo.bad_nest
    = Returned (false, PySol (Demo.answer Demo.bad_nest), PyNone) /\
  ~ (exists e, get_solution Demo.bad_nest = Raised e).
Proof.
  repeat split; try reflexivity.
  intros [e He]; vm_compute in He; discriminate He.
Qed.

(** The stand-in nest in binary64: the initial guess zeroes the residuals; at
    an iterate with both wire diameters zero the rates are zero and the
    residual vector is returned with an infinity and NaNs in it. *)
Example binary64_nest :
  error Demo.nest64 (x0 Demo.nest64)
    = Returned [0; 0; 0; 0; 0; 0; 0]%float /\
  error Demo.nest64 [120; 0; 10; 500; 0; 20; 480]%float
    = Returned [-200; -200; -150; neg_infinity; nan; nan; 0]%float.
Proof.
  split; vm_compute; reflexivity.
Qed.

End Demonstration.

(** * Further properties of the residual function and of the loads *)

Section Unpacking.

Context {num : Type} {ar : Arith num} {hc : Helicoil num}.

(** With a number of values in [x] other than seven, the empty vector
    included, the unpacking at the head of [error] raises [ValueError]: no
    residual is computed. *)
Theorem error_rejects_other_lengths (self : TwoCoilSetLength num) (x : list num) :
  List.length x <> 7%nat -> error self x = Raised ValueError.
Proof.
  intros Hlen.
  destruct x as [ | a1 [ | a2 [ | a3 [ | a4 [ | a5 [ | a6 [ | a7 [ | a8 l]]]]]]]];
    try reflexivity.
  exfalso; apply Hlen; reflexivity.
Qed.

(** The residuals do not depend on the two cycle amplitudes nor on the
    initial guess: two configurations that differ in these only have the same
    residual function. *)
Theorem residuals_ignore_amplitudes_and_guess
  (material : Material num)
  (rate design_load design_length radial_coil_gap max_compression
   end_condition compression_defln_reserve solid_stress_reserve : num)
  (lo hi lo' hi' : num) (guess guess' x : list num) :
  error (__init__ material rate design_load design_length radial_coil_gap
           max_compression lo hi end_condition compression_defln_reserve
           solid_stress_reserve guess) x
  = error (__init__ material rate design_load design_length radial_coil_gap
             max_compression lo' hi' end_condition compression_defln_reserve
             solid_stress_reserve guess') x.
Proof.
  destruct x as [ | a1 [ | a2 [ | a3 [ | a4 [ | a5 [ | a6 [ | a7 [ | a8 l]]]]]]]];
    reflexivity.
Qed.

End Unpacking.

Section ExactLaws.

Import Exact.

Context {hc : Helicoil xQ}.

Lemma equals_sub_zero (a b : xQ) : equals (a - b)%num 0 -> same a b.
Proof.
  destruct a as [p | ], b as [q | ]; cbn; try contradiction.
  intros H; lra.
Qed.

Lemma same_sym (a b : xQ) : same a b -> same b a.
Proof.
  destruct a as [p | ], b as [q | ]; cbn; try contradiction.
  intros H; lra.
Qed.

Lemma same_trans (a b c : xQ) : same a b -> same b c -> same a c.
Proof.
  destruct a as [p | ], b as [q | ], c as [r | ]; cbn; try contradiction.
  intros H1 H2; lra.
Qed.

Lemma Forall_seven {A : Type} (P : A -> Prop) (a b c d e f g : A) :
  Forall P [a; b; c; d; e; f; g] ->
  P a /\ P b /\ P c /\ P d /\ P e /\ P f /\ P g.
Proof.
  intros H.
  repeat (match goal with
          | K : Forall _ (_ :: _) |- _ => inversion_clear K
          end).
  repeat split; assumption.
Qed.

(** What a zero of the residuals is, after the docstring of [error]: the
    combined rate is the target rate; both coils have the target minimum
    length, hence the same one; the nest has the design length at the design
    load; both coils have the required solid stress reserve, hence equal
    reserves; and the inner coil buckles at the minimum service length. *)
Theorem zero_residuals_meet_the_targets (self : TwoCoilSetLength xQ)
  (OD do No L0o di Ni L0i : xQ) (v : list xQ) :
  error self [OD; do; No; L0o; di; Ni; L0i] = Returned v ->
  Forall (fun r => equals r 0) v ->
  let e := error_body self OD do No L0o di Ni L0i in
  same (e_Ro e + e_Ri e)%num (R self) /\
  same (e_minLength_o e) (e_min_length e) /\
  same (e_minLength_i e) (e_min_length e) /\
  same (e_minLength_o e) (e_minLength_i e) /\
  same (e_L_at_F e) (L self) /\
  same (e_solidStrRes_o e) (solid_str_res self) /\
  same (e_solidStrRes_i e) (solid_str_res self) /\
  same (e_solidStrRes_o e) (e_solidStrRes_i e) /\
  same (e_buckling_len e) (e_min_service_len e).
Proof.
  intros Herr Hz; cbv zeta.
  unfold error in Herr; injection Herr as <-.
  unfold error_body in *.
  destruct (L0o >? L0i)%num;
    cbn [e_v e_Ro e_Ri e_minLength_o e_minLength_i e_min_length e_L_at_F
         e_solidStrRes_o e_solidStrRes_i e_buckling_len e_min_service_len] in *;
    apply Forall_seven in Hz;
    destruct Hz as (H1 & H2 & H3 & H4 & H5 & H6 & H7);
    apply equals_sub_zero in H1, H2, H3, H4, H5, H6, H7;
    repeat split; try assumption;
    eapply same_trans; try eassumption; apply same_sym; assumption.
Qed.

(** A zero of the residuals exists only for a target rate that is a finite
    number other than zero: with a zero target rate the fourth residual is
    not a number wherever the first one vanishes. *)
Theorem zero_residuals_need_a_nonzero_rate (self : TwoCoilSetLength xQ)
  (OD do No L0o di Ni L0i : xQ) (v : list xQ) :
  error self [OD; do; No; L0o; di; Ni; L0i] = Returned v ->
  Forall (fun r => equals r 0) v ->
  exists r : Q, R self = Fin r /\ ~ r == 0.
Proof.
  intros Herr Hz.
  unfold error in Herr; injection Herr as <-.
  pose proof (zero_combined_rate self OD do No L0o di Ni L0i) as Hnan.
  cbv zeta in Hnan.
  assert (H1 : equals (e_Ro (error_body self OD do No L0o di Ni L0i) +
                       e_Ri (error_body self OD do No L0o di Ni L0i) - R self)%num 0
               /\ equals (nth 3 (e_v (error_body self OD do No L0o di Ni L0i)) zero) 0).
  { revert Hz; unfold error_body; destruct (L0o >? L0i)%num;
      cbn [e_v e_Ro e_Ri nth]; intros Hz; apply Forall_seven in Hz;
      destruct Hz as (H1 & _ & _ & H4 & _); split; assumption. }
  destruct H1 as [H1 H4]; apply equals_sub_zero in H1.
  destruct (e_Ro (error_body self OD do No L0o di Ni L0i) +
            e_Ri (error_body self OD do No L0o di Ni L0i))%num as [q | ] eqn:Hsum;
    [ | contradiction ].
  destruct (R self) as [r | ]; [ | contradiction ].
  exists r; split; [ reflexivity | ].
  intros Hr; cbn in H1.
  destruct (Hnan q eq_refl) as [_ Hfour]; [ lra | ].
  rewrite Hfour in H4; exact H4.
Qed.

(** Whichever branch the tie-break takes, the loads of the post-processing
    are the rate of each coil times its own deflection from the free length
    to the design length: [Fo = Ro*(L0o - L)] and [Fi = Ri*(L0i - L)]. *)
Theorem loads_are_rate_times_deflection (self : TwoCoilSetLength xQ)
  (OD do No di Ni : xQ) (L0o L0i : Q) :
  let s := get_solution_body self OD do No (Fin L0o) di Ni (Fin L0i) in
  agree (s_Fo s) (s_Ro s * (Fin L0o - L self))%num /\
  agree (s_Fi s) (s_Ri s * (Fin L0i - L self))%num.
Proof.
  cbv zeta; unfold get_solution_body.
  set (Ro := axial_rate (G (mat self)) do _ No).
  set (Ri := axial_rate (G (mat self)) di _ Ni).
  clearbody Ro Ri.
  destruct (Fin L0o >? Fin L0i)%num; cbn [s_Fo s_Fi s_Ro s_Ri];
    destruct Ro as [ro | ], Ri as [ri | ], (L self) as [l | ];
    cbv [add sub mul zero arith lift2 agree]; split; try exact I; ring.
Qed.

(** Whichever branch the tie-break takes, the length at the design load is
    [(Ro*L0o + Ri*L0i - F)/(Ro + Ri)]: the fourth residual has the same value
    on both sides of [L0o = L0i]. *)
Theorem length_at_load_is_branch_free (self : TwoCoilSetLength xQ)
  (OD do No di Ni : xQ) (L0o L0i : Q) :
  let e := error_body self OD do No (Fin L0o) di Ni (Fin L0i) in
  agree (e_L_at_F e)
        ((e_Ro e * Fin L0o + e_Ri e * Fin L0i - F self) / (e_Ro e + e_Ri e))%num.
Proof.
  cbv zeta; unfold error_body.
  set (Ro := axial_rate (G (mat self)) do _ No).
  set (Ri := axial_rate (G (mat self)) di _ Ni).
  clearbody Ro Ri.
  destruct (Fin L0o >? Fin L0i)%num; cbn [e_L_at_F e_Ro e_Ri];
    destruct Ro as [ro | ], Ri as [ri | ], (F self) as [f | ];
    cbv [add sub mul div zero arith lift2 xdiv agree]; try exact I;
    destruct (Qeq_bool (ro + ri) 0) eqn:Hq; try exact I;
    apply Qeq_bool_neq in Hq; field; exact Hq.
Qed.

Lemma loads_balance_back (f fo1 fi1 ro ri l1 l : Q) :
  ~ ro + ri == 0 ->
  (fo1 + ro * (l1 - l)) + (fi1 + ri * (l1 - l)) == f ->
  l1 - (f - fo1 - fi1) / (ro + ri) - l == 0.
Proof.
  intros Hrate H.
  assert (E : f - fo1 - fi1 == (l1 - l) * (ro + ri)) by lra.
  rewrite E; field; exact Hrate.
Qed.

(** The fourth residual vanishes exactly when the two loads of the
    post-processing add up to the design load and the combined rate is a
    finite number other than zero. *)
Theorem fourth_residual_is_the_load_balance (self : TwoCoilSetLength xQ)
  (OD do No di Ni : xQ) (L0o L0i : Q) :
  let e := error_body self OD do No (Fin L0o) di Ni (Fin L0i) in
  let s := get_solution_body self OD do No (Fin L0o) di Ni (Fin L0i) in
  equals (nth 3 (e_v e) zero) 0 <->
  (same (s_Fo s + s_Fi s)%num (F self) /\
   exists q : Q, (e_Ro e + e_Ri e)%num = Fin q /\ ~ q == 0).
Proof.
  cbv zeta; unfold error_body, get_solution_body.
  set (Ro := axial_rate (G (mat self)) do _ No).
  set (Ri := axial_rate (G (mat self)) di _ Ni).
  clearbody Ro Ri.
  destruct (Fin L0o >? Fin L0i)%num; cbn [e_v nth e_Ro e_Ri s_Fo s_Fi];
    destruct Ro as [ro | ], Ri as [ri | ], (F self) as [f | ], (L self) as [l | ];
    cbv [add sub mul div zero arith lift2 xdiv equals same];
    try destruct (Qeq_bool (ro + ri) 0) eqn:Hq;
    (split;
     [ intros K;
       first
         [ contradiction
         | split;
           [ apply loads_add_up; [ apply Qeq_bool_neq; exact Hq | exact K ]
           | eexists; split; [ reflexivity | apply Qeq_bool_neq; exact Hq ] ] ]
     | intros [K [q [Kq Kn]]];
       first
         [ contradiction
         | discriminate Kq
         | apply loads_balance_back; [ apply Qeq_bool_neq; exact Hq | exact K ]
         | injection Kq as <-; exfalso; apply Kn, Qeq_bool_iff; exact Hq ] ]).
Qed.

End ExactLaws.

(** * The callers *)

Section DriverLaws.

Context {num : Type} {ar : Arith num} {hc : Helicoil num} {sp : Scipy num}
        {rep : @HelicoilReport num hc}.

Import Drivers.

Local Open Scope num_scope.

Lemma set_absorbs (s r : num) (nd : NestData.t num) :
  NestData.set_solid_stress_reserve s (NestData.set_solid_stress_reserve r nd)
  = NestData.set_solid_stress_reserve s nd.
Proof. reflexivity. Qed.

Lemma after_sweep_last (rs : list num) (s : num) (nd : NestData.t num) :
  after_sweep (rs ++ [s]) nd = NestData.set_solid_stress_reserve s nd.
Proof.
  unfold after_sweep; rewrite fold_left_app; cbn [fold_left].
  revert nd; induction rs as [ | r rs IH]; intros nd; cbn [fold_left].
  - reflexivity.
  - rewrite IH; apply set_absorbs.
Qed.

(** What [get_solution] returns after a solve that converged, or did not. *)
Lemma get_solution_converged (nest : TwoCoilSetLength num) (sol : OptimizeResult)
  (OD do No L0o di Ni L0i : num) :
  root (error nest) (x0 nest) = Returned sol ->
  success sol = true ->
  x sol = [OD; do; No; L0o; di; Ni; L0i] ->
  get_solution nest =
    Returned (true,
              PyCoil (s_OC_data (get_solution_body nest OD do No L0o di Ni L0i)),
              PyCoil (s_IC_data (get_solution_body nest OD do No L0o di Ni L0i))).
Proof.
  intros Hroot Hok Hx.
  rewrite (get_solution_unfold nest Hroot), Hok, Hx; reflexivity.
Qed.

Lemma get_solution_stalled (nest : TwoCoilSetLength num) (sol : OptimizeResult) :
  root (error nest) (x0 nest) = Returned sol ->
  success sol = false ->
  get_solution nest = Returned (false, PySol sol, PyNone).
Proof.
  intros Hroot Hko.
  rewrite (get_solution_unfold nest Hroot), Hko; reflexivity.
Qed.

(** [ODerror] leaves [solid_stress_reserve] overwritten in the caller's
    dictionary whatever happens next; it returns [None] when the solve did not
    converge, and the outer diameter of the outer record less the target when
    it did. *)
Theorem ODerror_value (s t : num) (nd : NestData.t num)
  (nest : TwoCoilSetLength num) (sol : OptimizeResult) :
  NestData.construct (NestData.set_solid_stress_reserve s nd) = Returned nest ->
  root (error nest) (x0 nest) = Returned sol ->
  fst (ODerror s t nd) = NestData.set_solid_stress_reserve s nd /\
  (success sol = false -> snd (ODerror s t nd) = Returned None) /\
  (success sol = true ->
     forall OD do No L0o di Ni L0i,
       x sol = [OD; do; No; L0o; di; Ni; L0i] ->
       snd (ODerror s t nd) =
         Returned (Some (attr_OD (s_OC_data
                                    (get_solution_body nest OD do No L0o di Ni L0i))
                         - t))).
Proof.
  intros Hnest Hroot; split; [ reflexivity | split ].
  - intros Hko; unfold ODerror; cbn [snd].
    rewrite Hnest; cbn [bind].
    rewrite (get_solution_stalled nest Hroot Hko); reflexivity.
  - intros Hok OD do No L0o di Ni L0i Hx; unfold ODerror; cbn [snd].
    rewrite Hnest; cbn [bind].
    rewrite (get_solution_converged nest Hroot Hok Hx); reflexivity.
Qed.

(** A call of [ODerror] does not depend on the reserve the dictionary held,
    nor on an earlier call on the same dictionary. *)
Theorem ODerror_overrides_the_reserve (s t r u : num) (nd : NestData.t num) :
  ODerror s t (NestData.set_solid_stress_reserve r nd) = ODerror s t nd /\
  ODerror s t (fst (ODerror r u nd)) = ODerror s t nd.
Proof.
  split; reflexivity.
Qed.

(** The keys [ODerror] needs: with a keyword of [__init__] other than
    [solid_stress_reserve] missing from the dictionary, or with a key in it
    that is no keyword, the call raises [TypeError], whatever the solver would
    do; otherwise the nest is built, with the reserve of the call, whether or
    not the dictionary held one. *)
Theorem ODerror_keys (s t : num) (nd : NestData.t num) :
  (keys_fit nd = false -> snd (ODerror s t nd) = Raised TypeError) /\
  (keys_fit nd = true ->
     exists nest,
       NestData.construct (NestData.set_solid_stress_reserve s nd) = Returned nest /\
       solid_str_res nest = s /\ NestData.estimated_solution nd = Some (x0 nest)).
Proof.
  unfold ODerror, keys_fit, NestData.construct; cbn [snd].
  destruct nd as [m rate load len gap comp lo hi ec cres sres guess others].
  cbn [NestData.set_solid_stress_reserve NestData.other_keys NestData.material
       NestData.axial_rate NestData.design_load NestData.design_length
       NestData.radial_coil_gap NestData.max_compression
       NestData.lo_cycle_defln_amplitude NestData.hi_cycle_defln_amplitude
       NestData.end_condition NestData.compression_defln_reserve
       NestData.solid_stress_reserve NestData.estimated_solution].
  destruct others as [ | k others].
  2: { split; [ reflexivity | intros H; discriminate H ]. }
  destruct m, rate, load, len, gap, comp, lo, hi, ec, cres, guess;
    cbn [present andb NestData.required bind];
    (split; [ intros H; first [ discriminate H | reflexivity ]
            | intros H; first [ discriminate H
                              | eexists; repeat split ] ]).
Qed.

(** The first part of the scripts writes the two files exactly when the
    solve converged: the outer record to the first file, then the inner
    record to the second; when it did not converge nothing is opened or
    written, and the solver's result object is printed. *)
Theorem report_writes_only_a_solution (outer_file inner_file : string)
  (nd : NestData.t num) (nest : TwoCoilSetLength num) (sol : OptimizeResult) :
  NestData.construct nd = Returned nest ->
  root (error nest) (x0 nest) = Returned sol ->
  (success sol = false ->
     report outer_file inner_file nd =
       ([Print "No solution found. Solver data returned:"; PrintObj (PySol sol)],
        Returned tt)) /\
  (success sol = true ->
     forall OD do No L0o di Ni L0i,
       x sol = [OD; do; No; L0o; di; Ni; L0i] ->
       let fr := get_solution_body nest OD do No L0o di Ni L0i in
       report outer_file inner_file nd =
         ([Open outer_file; Write outer_file (coil_data_csv (s_OC_data fr));
           Open inner_file; Write inner_file (coil_data_csv (s_IC_data fr));
           Print (String (Ascii.ascii_of_nat 10) "solution written")],
          Returned tt)).
Proof.
  intros Hnest Hroot; split.
  - intros Hko; unfold report; rewrite Hnest; cbn [bind].
    rewrite (get_solution_stalled nest Hroot Hko); reflexivity.
  - intros Hok OD do No L0o di Ni L0i Hx; cbv zeta.
    unfold report; rewrite Hnest; cbn [bind].
    rewrite (get_solution_converged nest Hroot Hok Hx); reflexivity.
Qed.

(** One turn of a sweep, when the solve converged and when it did not. *)
Lemma sweep_step_converged (row : num -> pyobj -> pyobj -> outcome (list num))
  (nd : NestData.t num) (s : num) (rest : list num) :
  (forall r oc ic, exists cells, row r (PyCoil oc) (PyCoil ic) = Returned (r :: cells)) ->
  converges nd s ->
  exists cells,
    sweep row (s :: rest) nd =
      (let '(d, out, res) := sweep row rest (NestData.set_solid_stress_reserve s nd) in
       (d, PrintRow (s :: cells) :: out, res)).
Proof.
  intros Hrow (nest & sol & OD & do & No & L0o & di & Ni & L0i & Hnest & Hroot & Hok & Hx).
  destruct (Hrow s (s_OC_data (get_solution_body nest OD do No L0o di Ni L0i))
                   (s_IC_data (get_solution_body nest OD do No L0o di Ni L0i)))
    as [cells Hcells].
  exists cells; cbn [sweep]; rewrite Hnest; cbn [bind].
  rewrite (get_solution_converged nest Hroot Hok Hx); cbn [bind].
  rewrite Hcells; reflexivity.
Qed.

Lemma sweep_step_stalled (row : num -> pyobj -> pyobj -> outcome (list num))
  (nd : NestData.t num) (s : num) (rest : list num) :
  (forall r sol o, row r (PySol sol) o = Raised AttributeError) ->
  stalls nd s ->
  sweep row (s :: rest) nd =
    (NestData.set_solid_stress_reserve s nd, [], Raised AttributeError).
Proof.
  intros Hrow (nest & sol & Hnest & Hroot & Hko).
  cbn [sweep]; rewrite Hnest; cbn [bind].
  rewrite (get_solution_stalled nest Hroot Hko); cbn [bind].
  rewrite Hrow; reflexivity.
Qed.

Lemma converges_absorbs (nd : NestData.t num) (r s : num) :
  converges (NestData.set_solid_stress_reserve r nd) s <-> converges nd s.
Proof. unfold converges; rewrite set_absorbs; reflexivity. Qed.

Lemma stalls_absorbs (nd : NestData.t num) (r s : num) :
  stalls (NestData.set_solid_stress_reserve r nd) s <-> stalls nd s.
Proof. unfold stalls; rewrite set_absorbs; reflexivity. Qed.

Lemma PR20_row_on_records (r : num) (oc ic : CoilData) :
  exists cells, PR20_row r (PyCoil oc) (PyCoil ic) = Returned (r :: cells).
Proof. eexists; reflexivity. Qed.

Lemma main_row_on_records (r : num) (oc ic : CoilData) :
  exists cells, main_row r (PyCoil oc) (PyCoil ic) = Returned (r :: cells).
Proof. eexists; reflexivity. Qed.

Lemma sweep_stops (row : num -> pyobj -> pyobj -> outcome (list num))
  (nd : NestData.t num) (pre : list num) (s : num) (post : list num) :
  (forall r oc ic, exists cells, row r (PyCoil oc) (PyCoil ic) = Returned (r :: cells)) ->
  (forall r sol o, row r (PySol sol) o = Raised AttributeError) ->
  Forall (converges nd) pre ->
  stalls nd s ->
  exists rows,
    sweep row (pre ++ s :: post) nd =
      (NestData.set_solid_stress_reserve s nd, map PrintRow rows,
       Raised AttributeError) /\
    map (@hd_error num) rows = map Some pre.
Proof.
  intros Hok Hko Hpre Hs; revert nd Hpre Hs.
  induction pre as [ | r pre IH]; intros nd Hpre Hs; cbn [app].
  - exists []; split; [ | reflexivity ].
    apply sweep_step_stalled; assumption.
  - inversion_clear Hpre as [ | ? ? Hr Hrest].
    destruct (sweep_step_converged row (pre ++ s :: post) Hok Hr) as [cells Hstep].
    destruct (IH (NestData.set_solid_stress_reserve r nd)) as (rows & Hsweep & Hrows).
    + revert Hrest; apply Forall_impl; intros a; apply converges_absorbs.
    + apply stalls_absorbs; exact Hs.
    + exists ((r :: cells) :: rows); split.
      * rewrite Hstep, Hsweep, set_absorbs; reflexivity.
      * cbn [map hd_error]; rewrite Hrows; reflexivity.
Qed.

(** Neither sweep tests [solved]: at the first reserve whose solve does not
    converge the loop ends in an [AttributeError] (the solver's result object
    has no [L0], no [coil_gap]), after one row for each reserve before it,
    each row beginning with its reserve; the reserves after it are not tried,
    and the dictionary is left with the failing reserve. *)
Theorem sweeps_stop_at_the_first_failure (nd : NestData.t num)
  (pre : list num) (s : num) (post : list num) :
  Forall (converges nd) pre ->
  stalls nd s ->
  (exists rows,
     sweep PR20_row (pre ++ s :: post) nd =
       (NestData.set_solid_stress_reserve s nd, map PrintRow rows,
        Raised AttributeError) /\
     map (@hd_error num) rows = map Some pre) /\
  (exists rows,
     sweep main_row (pre ++ s :: post) nd =
       (NestData.set_solid_stress_reserve s nd, map PrintRow rows,
        Raised AttributeError) /\
     map (@hd_error num) rows = map Some pre).
Proof.
  intros Hpre Hs; split; apply sweep_stops; try assumption.
  - apply PR20_row_on_records.
  - reflexivity.
  - apply main_row_on_records.
  - reflexivity.
Qed.

Lemma sweep_completes (row : num -> pyobj -> pyobj -> outcome (list num))
  (nd : NestData.t num) (rs : list num) :
  (forall r oc ic, exists cells, row r (PyCoil oc) (PyCoil ic) = Returned (r :: cells)) ->
  Forall (converges nd) rs ->
  exists rows,
    sweep row rs nd = (after_sweep rs nd, map PrintRow rows, Returned tt) /\
    map (@hd_error num) rows = map Some rs.
Proof.
  intros Hok; revert nd; induction rs as [ | r rs IH]; intros nd Hrs.
  - exists []; split; reflexivity.
  - inversion_clear Hrs as [ | ? ? Hr Hrest].
    destruct (sweep_step_converged row rs Hok Hr) as [cells Hstep].
    destruct (IH (NestData.set_solid_stress_reserve r nd)) as (rows & Hsweep & Hrows).
    + revert Hrest; apply Forall_impl; intros a; apply converges_absorbs.
    + exists ((r :: cells) :: rows); split.
      * rewrite Hstep, Hsweep; reflexivity.
      * cbn [map hd_error]; rewrite Hrows; reflexivity.
Qed.

(** When every solve converges a sweep prints one row for each reserve, in
    order, each beginning with its reserve, and ends normally; the dictionary
    is left as the successive assignments make it. *)
Theorem sweeps_print_a_row_per_reserve (nd : NestData.t num) (rs : list num) :
  Forall (converges nd) rs ->
  (exists rows,
     sweep PR20_row rs nd = (after_sweep rs nd, map PrintRow rows, Returned tt) /\
     map (@hd_error num) rows = map Some rs) /\
  (exists rows,
     sweep main_row rs nd = (after_sweep rs nd, map PrintRow rows, Returned tt) /\
     map (@hd_error num) rows = map Some rs).
Proof.
  intros Hrs; split; apply sweep_completes; try assumption.
  - apply PR20_row_on_records.
  - apply main_row_on_records.
Qed.

(** The turns of a sweep are independent: what a sweep over [rs1 ++ rs2]
    prints is what the sweep over [rs1] prints followed, unless that one
    raised, by what a sweep over [rs2] prints when started from the original
    dictionary; the reserve an earlier turn left in the shared dictionary has
    no effect. *)
Theorem sweep_turns_are_independent
  (row : num -> pyobj -> pyobj -> outcome (list num))
  (rs1 rs2 : list num) (nd : NestData.t num) :
  sweep row (rs1 ++ rs2) nd =
    match sweep row rs1 nd with
    | (nd1, out1, Raised e) => (nd1, out1, Raised e)
    | (nd1, out1, Returned _) =>
        let '(nd2, out2, res) := sweep row rs2 nd in
        (match rs2 with [] => nd1 | _ :: _ => nd2 end, out1 ++ out2, res)
    end.
Proof.
  assert (Hfrom : forall rs r d, rs <> [] ->
            sweep row rs (NestData.set_solid_stress_reserve r d) = sweep row rs d).
  { intros [ | a rs] r d Hne; [ contradiction Hne; reflexivity | ].
    cbn [sweep]; rewrite set_absorbs; reflexivity. }
  revert nd; induction rs1 as [ | r rs1 IH]; intros nd; cbn [app].
  - cbn [sweep]. destruct (sweep row rs2 nd) as [[nd2 out2] res] eqn:H2.
    destruct rs2 as [ | a rs2]; [ | reflexivity ].
    cbn [sweep] in H2; injection H2 as <- <- <-; reflexivity.
  - cbn [sweep].
    destruct (nest <- NestData.construct (NestData.set_solid_stress_reserve r nd) ;;
              r0 <- get_solution nest ;;
              (let '(solved, OC_data, IC_data) := r0 in row r OC_data IC_data))
      as [cells | e]; [ | reflexivity ].
    rewrite IH.
    destruct (sweep row rs1 (NestData.set_solid_stress_reserve r nd))
      as [[nd1 out1] [[] | e]]; [ | reflexivity ].
    destruct rs2 as [ | a rs2].
    + cbn [sweep]; reflexivity.
    + rewrite Hfrom by discriminate.
      destruct (sweep row (a :: rs2) nd) as [[nd2 out2] res]; reflexivity.
Qed.

End DriverLaws.

(** * The stand-in nest, run through the callers *)

Section DriverDemonstration.

#[local] Existing Instance Demo.helicoil.
#[local] Existing Instance Demo.exact_scipy.
#[local] Existing Instance DemoDrivers.exact_report.

Import Drivers.

(** The stand-in nest is solved at the reserve 100 and at no other: the
    solve for 100 converges, the solve for 50 ends without converging. *)
Lemma demo_converges : converges (DemoDrivers.nest_data 200) (Exact.Fin 100).
Proof.
  exists Demo.nest, (Demo.answer Demo.nest),
    (Exact.Fin 120), (Exact.Fin 20), (Exact.Fin 10), (Exact.Fin 500),
    (Exact.Fin 10), (Exact.Fin 20), (Exact.Fin 480).
  repeat split.
Defined.

Lemma demo_stalls : stalls (DemoDrivers.nest_data 200) (Exact.Fin 50).
Proof.
  eexists; eexists; split; [ reflexivity | split; reflexivity ].
Defined.

Lemma zero_residuals_meet_the_targets_witness :
  Exact.same
    (e_solidStrRes_o (error_body Demo.nest
       (Exact.Fin 120) (Exact.Fin 20) (Exact.Fin 10) (Exact.Fin 500)
       (Exact.Fin 10) (Exact.Fin 20) (Exact.Fin 480)))
    (e_solidStrRes_i (error_body Demo.nest
       (Exact.Fin 120) (Exact.Fin 20) (Exact.Fin 10) (Exact.Fin 500)
       (Exact.Fin 10) (Exact.Fin 20) (Exact.Fin 480))).
Proof.
  refine (proj1 (proj2 (proj2 (proj2 (proj2 (proj2 (proj2 (proj2
    (@zero_residuals_meet_the_targets Demo.helicoil Demo.nest
       (Exact.Fin 120) (Exact.Fin 20) (Exact.Fin 10) (Exact.Fin 500)
       (Exact.Fin 10) (Exact.Fin 20) (Exact.Fin 480)
       (e_v (error_body Demo.nest
               (Exact.Fin 120) (Exact.Fin 20) (Exact.Fin 10) (Exact.Fin 500)
               (Exact.Fin 10) (Exact.Fin 20) (Exact.Fin 480)))
       eq_refl _))))))))).
  vm_compute; repeat constructor.
Defined.

Lemma zero_residuals_need_a_nonzero_rate_witness :
  exists r : Q, R Demo.nest = Exact.Fin r /\ ~ r == 0.
Proof.
  refine (@zero_residuals_need_a_nonzero_rate Demo.helicoil Demo.nest
            (Exact.Fin 120) (Exact.Fin 20) (Exact.Fin 10) (Exact.Fin 500)
            (Exact.Fin 10) (Exact.Fin 20) (Exact.Fin 480)
            (e_v (error_body Demo.nest
                    (Exact.Fin 120) (Exact.Fin 20) (Exact.Fin 10) (Exact.Fin 500)
                    (Exact.Fin 10) (Exact.Fin 20) (Exact.Fin 480)))
            eq_refl _).
  vm_compute; repeat constructor.
Defined.

(** [ODerror] on the stand-in nest: the outer diameter 120 less the target
    100 at the reserve 100, and [None] at the reserve 50. *)
Lemma ODerror_value_witness :
  (exists od : Q,
     snd (ODerror (Exact.Fin 100) (Exact.Fin 100) (DemoDrivers.nest_data 200))
       = Returned (Some (Exact.Fin od)) /\ od == 20) /\
  snd (ODerror (Exact.Fin 50) (Exact.Fin 100) (DemoDrivers.nest_data 200))
    = Returned None.
Proof.
  split.
  - destruct (@ODerror_value Exact.xQ Exact.arith Demo.helicoil Demo.exact_scipy
                DemoDrivers.exact_report (Exact.Fin 100) (Exact.Fin 100)
                (DemoDrivers.nest_data 200) Demo.nest (Demo.answer Demo.nest)
                eq_refl eq_refl) as (_ & _ & Hok).
    rewrite (Hok eq_refl _ _ _ _ _ _ _ eq_refl).
    eexists; split; [ reflexivity | vm_compute; reflexivity ].
  - destruct demo_stalls as (nest & sol & Hnest & Hroot & Hko).
    exact (proj1 (proj2 (@ODerror_value Exact.xQ Exact.arith Demo.helicoil
                           Demo.exact_scipy DemoDrivers.exact_report
                           (Exact.Fin 50) (Exact.Fin 100)
                           (DemoDrivers.nest_data 200) nest sol Hnest Hroot)) Hko).
Defined.

(** The first part of a script on the stand-in nest: five events when it is
    solved, two when it is not. *)
Lemma report_writes_only_a_solution_witness :
  List.length (fst (report "outer.txt" "inner.txt" (DemoDrivers.nest_data 200)))
    = 5%nat /\
  report "outer.txt" "inner.txt" (DemoDrivers.nest_data (-280)) =
    ([Print "No solution found. Solver data returned:";
      PrintObj (PySol (Demo.answer Demo.bad_nest))], Returned tt).
Proof.
  split.
  - destruct (@report_writes_only_a_solution Exact.xQ Exact.arith Demo.helicoil
                Demo.exact_scipy DemoDrivers.exact_report "outer.txt" "inner.txt"
                (DemoDrivers.nest_data 200) Demo.nest (Demo.answer Demo.nest)
                eq_refl eq_refl) as [_ Hok].
    rewrite (Hok eq_refl _ _ _ _ _ _ _ eq_refl); reflexivity.
  - exact (proj1 (@report_writes_only_a_solution Exact.xQ Exact.arith
                    Demo.helicoil Demo.exact_scipy DemoDrivers.exact_report
                    "outer.txt" "inner.txt" (DemoDrivers.nest_data (-280))
                    Demo.bad_nest (Demo.answer Demo.bad_nest) eq_refl eq_refl)
                 eq_refl).
Defined.

(** A sweep over the reserves 100, 50, 100 on the stand-in nest: one row,
    then the [AttributeError]. *)
Lemma sweeps_stop_at_the_first_failure_witness :
  exists rows,
    sweep PR20_row [Exact.Fin 100; Exact.Fin 50; Exact.Fin 100]
      (DemoDrivers.nest_data 200)
    = (NestData.set_solid_stress_reserve (Exact.Fin 50) (DemoDrivers.nest_data 200),
       map PrintRow rows, Raised AttributeError) /\
    map (@hd_error Exact.xQ) rows = [Some (Exact.Fin 100)].
Proof.
  exact (proj1 (@sweeps_stop_at_the_first_failure Exact.xQ Exact.arith
                  Demo.helicoil Demo.exact_scipy DemoDrivers.exact_report
                  (DemoDrivers.nest_data 200)
                  [Exact.Fin 100] (Exact.Fin 50) [Exact.Fin 100]
                  (Forall_cons _ demo_converges (Forall_nil _)) demo_stalls)).
Defined.

(** A sweep over the reserve 100 twice: two rows and a normal end. *)
Lemma sweeps_print_a_row_per_reserve_witness :
  exists rows,
    sweep PR20_row [Exact.Fin 100; Exact.Fin 100] (DemoDrivers.nest_data 200)
    = (after_sweep [Exact.Fin 100; Exact.Fin 100] (DemoDrivers.nest_data 200),
       map PrintRow rows, Returned tt) /\
    map (@hd_error Exact.xQ) rows = [Some (Exact.Fin 100); Some (Exact.Fin 100)].
Proof.
  exact (proj1 (@sweeps_print_a_row_per_reserve Exact.xQ Exact.arith
                  Demo.helicoil Demo.exact_scipy DemoDrivers.exact_report
                  (DemoDrivers.nest_data 200)
                  [Exact.Fin 100; Exact.Fin 100]
                  (Forall_cons _ demo_converges
                     (Forall_cons _ demo_converges (Forall_nil _))))).
Defined.

End DriverDemonstration.

(** * Binary64 against the exact statements *)

Section Binary64Demonstration.

#[local] Existing Instance Demo.helicoil.

(** C2 as the specification has it fails in binary64: with no active inner
    coil ([Ni = 0]) the inner rate is infinite, and at equal free lengths the
    second branch gives the inner preload [inf * 0.0], a NaN, not zero. *)
Lemma equal_lengths_nan_preload :
  PrimFloat.eqb 500 500 = true /\
  e_Ri (error_body Demo.nest64 120 20 10 500 10 0 500)%float = infinity /\
  e_Fo1 (error_body Demo.nest64 120 20 10 500 10 0 500)%float = 0%float /\
  e_Fi1 (error_body Demo.nest64 120 20 10 500 10 0 500)%float = nan /\
  PrimFloat.eqb (e_Fi1 (error_body Demo.nest64 120 20 10 500 10 0 500)%float) 0
    = false.
Proof.
  repeat split; vm_compute; reflexivity.
Qed.

(** C9 as the specification has it fails in binary64: with the design load
    one unit in the last place above 19200 the seven residuals are all [0.0],
    and the two loads add up to 19200, not to the design load. *)
Lemma rounded_residuals_hide_the_load :
  error nest64_up [120; 20; 10; 500; 10; 20; 480]%float
    = Returned [0; 0; 0; 0; 0; 0; 0]%float /\
  (s_Fo (get_solution_body nest64_up 120 20 10 500 10 20 480)%float +
   s_Fi (get_solution_body nest64_up 120 20 10 500 10 20 480)%float)%float
    = 19200%float /\
  PrimFloat.eqb
    (s_Fo (get_solution_body nest64_up 120 20 10 500 10 20 480)%float +
     s_Fi (get_solution_body nest64_up 120 20 10 500 10 20 480)%float)%float
    (F nest64_up) = false.
Proof.
  repeat split; vm_compute; reflexivity.
Qed.


(** [error] on no value at all, and on eight. *)
Lemma error_rejects_other_lengths_witness :
  error Demo.nest64 [] = Raised ValueError /\
  error Demo.nest64 [120; 20; 10; 500; 10; 20; 480; 1]%float = Raised ValueError.
Proof.
  split.
  - apply (@error_rejects_other_lengths float Binary64.arith Demo.helicoil
             Demo.nest64 []); discriminate.
  - apply (@error_rejects_other_lengths float Binary64.arith Demo.helicoil
             Demo.nest64 [120; 20; 10; 500; 10; 20; 480; 1]%float); discriminate.
Defined.

End Binary64Demonstration.
